(** * Timber MCP protocol server: a shallow embedding and its properties

    The development follows [timber_mcp_protocol_server.py]: the Python
    values the server manipulates, the interpreter operations it relies on,
    the two Bedrock calls, [MCPServer.query_knowledge_base],
    [MCPServer.handle_request] and the read loop of [MCPServer.run].

    The calls to [logger] write to a log file and are left out, except for
    the expression one of them evaluates on the request.  The module
    globals are taken as they stand once the module is loaded. *)

From Stdlib Require Import String Ascii List ZArith Lia Bool DecimalString.
From Stdlib Require Import SpecFloat.
Import ListNotations.
Local Open Scope list_scope.
Local Open Scope string_scope.

(** ** Python values

    Everything the server touches is JSON shaped: what [json.loads] returns,
    the dict literals the handlers build, and the boto3 responses.  A [dict]
    is kept as an association list in insertion order, the order
    [json.dumps] and [dict.values()] follow.  Characters are the code points
    below 256. *)

#[warnings="-register-all"]
Inductive value : Type :=
| VNone
| VBool (b : bool)
| VInt (z : Z)
| VFloat (f : spec_float)
| VStr (s : string)
| VList (l : list value)
| VDict (d : list (string * value)).

Definition dict : Type := list (string * value).

(** The exceptions of the program, all subclasses of [Exception].
    [Raised cls msg] stands for any class the program does not name itself
    (botocore's [ClientError], [RecursionError], [UnicodeDecodeError]...). *)
Inductive exn : Type :=
| JSONDecodeError (msg : string)
| AttributeError (ty attr : string)
| KeyError (key : value)
| IndexError (ty : string)
| TypeError (ty : string) (op : string)
| Raised (cls msg : string).

Inductive result (A : Type) : Type :=
| Ok (a : A)
| Raise (e : exn).
Arguments Ok {A} a.
Arguments Raise {A} e.

Definition is_JSONDecodeError (e : exn) : bool :=
  match e with JSONDecodeError _ => true | _ => false end.

(** ** Interpreter operations used by the server *)

Definition type_name (v : value) : string :=
  match v with
  | VNone => "NoneType"
  | VBool _ => "bool"
  | VInt _ => "int"
  | VFloat _ => "float"
  | VStr _ => "str"
  | VList _ => "list"
  | VDict _ => "dict"
  end.

Fixpoint lookup (k : string) (d : dict) : option value :=
  match d with
  | [] => None
  | (k', v) :: d' => if String.eqb k k' then Some v else lookup k d'
  end.

(** [d.get(k, dflt)] on a dict. *)
Definition dict_get (d : dict) (k : string) (dflt : value) : value :=
  match lookup k d with
  | Some v => v
  | None => dflt
  end.

(** [x.get(k, dflt)] on an arbitrary object: only dicts have the method. *)
Definition py_get (x : value) (k : string) (dflt : value) : result value :=
  match x with
  | VDict d => Ok (dict_get d k dflt)
  | _ => Raise (AttributeError (type_name x) "get")
  end.

(** [x[k]] with a string key. *)
Definition getitem_str (x : value) (k : string) : result value :=
  match x with
  | VDict d =>
      match lookup k d with
      | Some v => Ok v
      | None => Raise (KeyError (VStr k))
      end
  | _ => Raise (TypeError (type_name x) "subscript by str")
  end.

(** [x[0]]. *)
Definition getitem_0 (x : value) : result value :=
  match x with
  | VList (v :: _) => Ok v
  | VList [] => Raise (IndexError "list")
  | VStr (String c _) => Ok (VStr (String c EmptyString))
  | VStr EmptyString => Raise (IndexError "str")
  | VDict _ => Raise (KeyError (VInt 0))
  | _ => Raise (TypeError (type_name x) "subscript by int")
  end.

(** [bool(x)], the test behind [if not x]. *)
Definition truthy (x : value) : bool :=
  match x with
  | VNone => false
  | VBool b => b
  | VInt z => negb (Z.eqb z 0)
  | VFloat (S754_zero _) => false
  | VFloat _ => true
  | VStr s => negb (String.eqb s "")
  | VList l => match l with [] => false | _ => true end
  | VDict d => match d with [] => false | _ => true end
  end.

(** [x == s] for a string literal [s]. *)
Definition eq_str (x : value) (s : string) : bool :=
  match x with
  | VStr t => String.eqb t s
  | _ => false
  end.

Fixpoint chars (s : string) : list value :=
  match s with
  | EmptyString => []
  | String c s' => VStr (String c EmptyString) :: chars s'
  end.

(** The items [for ... in x] visits. *)
Definition py_iter (x : value) : result (list value) :=
  match x with
  | VList l => Ok l
  | VStr s => Ok (chars s)
  | VDict d => Ok (map (fun kv => VStr (fst kv)) d)
  | _ => Raise (TypeError (type_name x) "iter")
  end.

(** [len(x)]. *)
Definition py_len (x : value) : result Z :=
  match x with
  | VList l => Ok (Z.of_nat (List.length l))
  | VStr s => Ok (Z.of_nat (String.length s))
  | VDict d => Ok (Z.of_nat (List.length d))
  | _ => Raise (TypeError (type_name x) "len")
  end.

Definition str_of_int (z : Z) : string := NilZero.string_of_int (Z.to_int z).

(** [str.isspace] on one character, for the code points below 256. *)
Definition is_space (c : ascii) : bool :=
  existsb (Nat.eqb (nat_of_ascii c)) [9; 10; 11; 12; 13; 28; 29; 30; 31; 32; 133; 160]%nat.

Fixpoint lstrip (s : string) : string :=
  match s with
  | EmptyString => EmptyString
  | String c s' => if is_space c then lstrip s' else s
  end.

Fixpoint rstrip (s : string) : string :=
  match s with
  | EmptyString => EmptyString
  | String c s' =>
      match rstrip s' with
      | EmptyString => if is_space c then EmptyString else String c EmptyString
      | r => String c r
      end
  end.

(** [s.strip()]. *)
Definition strip (s : string) : string := rstrip (lstrip s).

Definition nl : string := String (ascii_of_nat 10) EmptyString.

(** The literal floats of the source, as binary64 values. *)
Definition float_0_0 : spec_float := S754_zero false.
Definition float_0_8 : spec_float := S754_finite false 7205759403792794 (-53).
Definition float_0_9 : spec_float := S754_finite false 8106479329266893 (-53).

(** [float_0_8] and [float_0_9] are the doubles nearest to 8/10 and 9/10:
    with mantissa [m] at exponent -53, [|m / 2^53 - k / 10|] is at most half
    a unit in the last place, [2^-54]. *)
Definition nearest_tenths (f : spec_float) (k : Z) : Prop :=
  match f with
  | S754_finite false m e =>
      e = (-53)%Z /\ (2 ^ 52 <= Z.pos m < 2 ^ 53)%Z /\
      (Z.abs (10 * Z.pos m - k * 2 ^ 53) <= 5)%Z
  | _ => False
  end.

(** ** What the server takes from its surroundings

    The interpreter's [json] module and [str()], the two boto3 clients and
    the module globals read from the environment at import time.  The
    clients act on a state of their own ([services]): the same call may
    answer differently at different times.

    [invoke_model] stands for the call together with
    [model_response['body'].read().decode('utf-8')]: it yields the decoded
    body text, or the exception raised on the way. *)

Record retrieve_call : Type := {
  knowledgeBaseId : string;
  retrievalQuery_text : value;
  numberOfResults : Z
}.

Record invoke_call : Type := {
  modelId : string;
  body : string
}.

Inductive api_call : Type :=
| Retrieve (c : retrieve_call)
| InvokeModel (c : invoke_call).

Class Host : Type := {
  json_loads : string -> result value;
  json_dumps : value -> string;
  repr_value : value -> string;
  exn_str : exn -> string;
  services : Type;
  retrieve : retrieve_call -> services -> result value * services;
  invoke_model : invoke_call -> services -> result string * services;
  LOCAL_MODE : bool;
  KNOWLEDGE_BASE_ID : string;
  MODEL_ID : string
}.

(** ** Pure computations that may raise *)

Definition rbind {A B : Type} (r : result A) (k : A -> result B) : result B :=
  match r with
  | Ok a => k a
  | Raise e => Raise e
  end.

Notation "x <-- r ;; k" := (rbind r (fun x => k))
  (at level 100, r at next level, right associativity).

Section Server.
Context {host : Host}.

(** [str(v)], also what an f-string field renders. *)
Definition py_str (v : value) : string :=
  match v with
  | VStr s => s
  | VNone => "None"
  | VBool true => "True"
  | VBool false => "False"
  | VInt z => str_of_int z
  | _ => repr_value v
  end.

(** ** [MCPServer] and the running process

    [self.tools] is an attribute of a mutable object, so it is part of the
    state.  Besides it, a request can change: the state behind the two
    clients, the record of the calls made to them, the lines printed so far,
    and the local variable [request] of [run], which keeps its last binding
    from one turn of the loop to the next. *)

Record MCPServer : Type := { tools : dict }.

(** [MCPServer.__init__]. *)
Definition MCPServer_init : MCPServer := {|
  tools :=
    [("query_timber_kb",
      VDict
        [("name", VStr "query_timber_kb");
         ("description",
          VStr "Query the Timber knowledge base for troubleshooting information");
         ("inputSchema",
          VDict
            [("type", VStr "object");
             ("properties",
              VDict
                [("query",
                  VDict
                    [("type", VStr "string");
                     ("description", VStr "The question or query about Timber")])]);
             ("required", VList [VStr "query"])])])]
|}.

Record process : Type := mkProcess {
  self : MCPServer;
  clients : services;
  api_log : list api_call;
  stdout : list string;
  request_var : option value
}.

Definition M (A : Type) : Type := process -> result A * process.

Definition ret {A : Type} (a : A) : M A := fun p => (Ok a, p).

Definition bind {A B : Type} (m : M A) (k : A -> M B) : M B :=
  fun p =>
    match m p with
    | (Ok a, p') => k a p'
    | (Raise e, p') => (Raise e, p')
    end.

Notation "x <- m ;; k" := (bind m (fun x => k))
  (at level 100, m at next level, right associativity).

Definition lift {A : Type} (r : result A) : M A := fun p => (r, p).

(** [try: body / except Exception as e: handler e]. *)
Definition try_except {A : Type} (body : M A) (handler : exn -> M A) : M A :=
  fun p =>
    match body p with
    | (Ok a, p') => (Ok a, p')
    | (Raise e, p') => handler e p'
    end.

Definition called (c : api_call) (s : services) (p : process) : process :=
  mkProcess (self p) s (api_log p ++ [c]) (stdout p) (request_var p).

Definition call_retrieve (c : retrieve_call) : M value :=
  fun p => let (r, s) := retrieve c (clients p) in (r, called (Retrieve c) s p).

Definition call_invoke_model (c : invoke_call) : M string :=
  fun p => let (r, s) := invoke_model c (clients p) in (r, called (InvokeModel c) s p).

Definition printed (line : string) (p : process) : process :=
  mkProcess (self p) (clients p) (api_log p) (stdout p ++ [line]) (request_var p).

(** [print(line, flush=True)]. *)
Definition print (line : string) : M unit := fun p => (Ok tt, printed line p).

Definition bound (v : value) (p : process) : process :=
  mkProcess (self p) (clients p) (api_log p) (stdout p) (Some v).

Definition set_request (v : value) : M unit := fun p => (Ok tt, bound v p).

Definition get_request : M (option value) := fun p => (Ok (request_var p), p).

Definition get_tools : M dict := fun p => (Ok (tools (self p)), p).

(** *** [query_knowledge_base] *)

Definition simulated_answer (query : value) : value :=
  VDict
    [("response", VStr ("[LOCAL MODE] Simulated response for: " ++ py_str query));
     ("source", VStr "local_simulation");
     ("confidence", VFloat float_0_8)].

Definition nothing_found_answer : value :=
  VDict
    [("response", VStr "No relevant information found in the Timber knowledge base.");
     ("source", VStr "knowledge_base");
     ("confidence", VFloat float_0_0)].

Definition generated_answer (response_text : value) (retrieved_count : Z) : value :=
  VDict
    [("response", response_text);
     ("source", VStr "knowledge_base");
     ("confidence", VFloat float_0_9);
     ("retrieved_count", VInt retrieved_count)].

Definition error_answer (e : exn) : value :=
  VDict
    [("response", VStr ("Error querying knowledge base: " ++ exn_str e));
     ("source", VStr "error");
     ("confidence", VFloat float_0_0)].

(** One item of the comprehension: [f"Document {i+1}: {text}"]. *)
Definition document (i : nat) (text : value) : string :=
  "Document " ++ str_of_int (Z.of_nat i + 1) ++ ": " ++ py_str text.

(** The comprehension over [enumerate(...)], from index [i] on; it stops at
    the first item whose [['content']['text']] raises. *)
Fixpoint documents (i : nat) (results : list value) : result (list string) :=
  match results with
  | [] => Ok []
  | r :: rest =>
      content <-- getitem_str r "content" ;;
      text <-- getitem_str content "text" ;;
      ds <-- documents (S i) rest ;;
      Ok (document i text :: ds)
  end.

Definition build_context (retrieved_results : value) : result string :=
  items <-- py_iter retrieved_results ;;
  ds <-- documents 0 items ;;
  Ok (String.concat (nl ++ nl) ds).

Definition dquote : string := String (ascii_of_nat 34) EmptyString.

Definition build_prompt (query : value) (context : string) : string :=
  "Based on the following Timber documentation, answer the user's question: "
    ++ dquote ++ py_str query ++ dquote ++ nl
    ++ nl
    ++ "Documentation:" ++ nl
    ++ context ++ nl
    ++ nl
    ++ "Please provide a helpful and accurate answer based on the documentation provided.".

Definition retrieve_request (query : value) : retrieve_call := {|
  knowledgeBaseId := KNOWLEDGE_BASE_ID;
  retrievalQuery_text := query;
  numberOfResults := 5
|}.

Definition invoke_request (prompt : string) : invoke_call := {|
  modelId := MODEL_ID;
  body :=
    json_dumps
      (VDict
         [("anthropic_version", VStr "bedrock-2023-05-31");
          ("max_tokens", VInt 1000);
          ("messages",
           VList [VDict [("role", VStr "user"); ("content", VStr prompt)]])])
|}.

(** The body of the [try] statement. *)
Definition live_query (query : value) : M value :=
  retrieve_response <- call_retrieve (retrieve_request query) ;;
  retrieved_results <-
    lift (py_get retrieve_response "retrievalResults" (VList [])) ;;
  if negb (truthy retrieved_results) then ret nothing_found_answer
  else
    context <- lift (build_context retrieved_results) ;;
    let prompt := build_prompt query context in
    model_response <- call_invoke_model (invoke_request prompt) ;;
    response_body <- lift (json_loads model_response) ;;
    content <- lift (getitem_str response_body "content") ;;
    first <- lift (getitem_0 content) ;;
    response_text <- lift (getitem_str first "text") ;;
    retrieved_count <- lift (py_len retrieved_results) ;;
    ret (generated_answer response_text retrieved_count).

Definition query_knowledge_base (query : value) : M value :=
  if LOCAL_MODE then ret (simulated_answer query)
  else try_except (live_query query) (fun e => ret (error_answer e)).

(** *** [handle_request] *)

Definition success_envelope (id result : value) : value :=
  VDict [("jsonrpc", VStr "2.0"); ("id", id); ("result", result)].

Definition error_envelope (id : value) (code : Z) (message : string) : value :=
  VDict
    [("jsonrpc", VStr "2.0");
     ("id", id);
     ("error", VDict [("code", VInt code); ("message", VStr message)])].

Definition initialize_result : value :=
  VDict
    [("protocolVersion", VStr "2024-11-05");
     ("capabilities", VDict [("tools", VDict [])]);
     ("serverInfo",
      VDict [("name", VStr "bedrock-kb-retrieval"); ("version", VStr "1.0.0")])].

Definition tools_list_result (registry : dict) : value :=
  VDict [("tools", VList (map snd registry))].

Definition tool_call_result (text : value) : value :=
  VDict
    [("content", VList [VDict [("type", VStr "text"); ("text", text)]]);
     ("isError", VBool false)].

(** The [tools/call] branch.  [None] is the path on which no [return] of
    the branch is reached and control falls to the end of the function. *)
Definition tools_call (request params : value) : M (option value) :=
  tool_name <- lift (py_get params "name" VNone) ;;
  arguments <- lift (py_get params "arguments" (VDict [])) ;;
  if eq_str tool_name "query_timber_kb" then
    query <- lift (py_get arguments "query" (VStr "")) ;;
    result <- query_knowledge_base query ;;
    id <- lift (py_get request "id" VNone) ;;
    text <- lift (getitem_str result "response") ;;
    ret (Some (success_envelope id (tool_call_result text)))
  else ret None.

Definition handle_request (request : value) : M value :=
  method <- lift (py_get request "method" VNone) ;;
  params <- lift (py_get request "params" (VDict [])) ;;
  if eq_str method "initialize" then
    id <- lift (py_get request "id" VNone) ;;
    ret (success_envelope id initialize_result)
  else if eq_str method "tools/list" then
    id <- lift (py_get request "id" VNone) ;;
    registry <- get_tools ;;
    ret (success_envelope id (tools_list_result registry))
  else
    returned <-
      (if eq_str method "tools/call" then tools_call request params
       else ret None) ;;
    match returned with
    | Some response => ret response
    | None =>
        (* Default response for unhandled methods *)
        id <- lift (py_get request "id" VNone) ;;
        ret (error_envelope id (-32601) ("Method not found: " ++ py_str method))
    end.

(** *** [run] *)

(** What [sys.stdin.readline()] delivers, in order: a line, or a
    [KeyboardInterrupt] while the process waits for one.  Past the end of
    the list the stream is at its end and [readline] returns the empty
    string. *)
Inductive stdin_event : Type :=
| Line (s : string)
| Interrupt.

Inductive flow : Type :=
| Next
| Stop.

Inductive exit_status : Type :=
| Returned
| SysExit (code : Z).

Definition parse_error_response : value :=
  error_envelope VNone (-32700) "Parse error".

Definition internal_error_response (id : value) : value :=
  error_envelope id (-32603) "Internal error".

(** The inner [try] statement of the loop, on a stripped, non-empty line. *)
Definition handle_line (line : string) : M unit :=
  try_except
    (request <- lift (json_loads line) ;;
     _ <- set_request request ;;
     (* logger.info(f"Received request: {request.get('method', 'unknown')}") *)
     _ <- lift (py_get request "method" (VStr "unknown")) ;;
     response <- handle_request request ;;
     print (json_dumps response))
    (fun e =>
       if is_JSONDecodeError e then print (json_dumps parse_error_response)
       else
         in_locals <- get_request ;;
         id <-
           match in_locals with
           | Some request => lift (py_get request "id" VNone)
           | None => ret VNone
           end ;;
         print (json_dumps (internal_error_response id))).

(** The body of [while True], given what [readline] returned. *)
Definition loop_body (line : string) : M flow :=
  if String.eqb line EmptyString then ret Stop
  else
    let line := strip line in
    if String.eqb line EmptyString then ret Next
    else
      _ <- handle_line line ;;
      ret Next.

(** The [while] loop; [true] when it was left by a [KeyboardInterrupt]. *)
Fixpoint loop (stdin : list stdin_event) : M bool :=
  match stdin with
  | [] =>
      _ <- loop_body EmptyString ;;
      ret false
  | Interrupt :: _ => ret true
  | Line line :: rest =>
      f <- loop_body line ;;
      match f with
      | Next => loop rest
      | Stop => ret false
      end
  end.

(** [run]: the loop under its two outer handlers.  An exception that
    leaves the loop ends the process with [sys.exit(1)]; otherwise [run]
    returns and the process ends with status 0. *)
Definition run (stdin : list stdin_event) : process -> exit_status * process :=
  fun p =>
    match loop stdin p with
    | (Ok _, p') => (Returned, p')
    | (Raise _, p') => (SysExit 1, p')
    end.

(** The process as [__main__] starts it: [server = MCPServer()], then
    [server.run()]. *)
Definition start (s : services) : process := mkProcess MCPServer_init s [] [] None.

Definition main (s : services) (stdin : list stdin_event) : exit_status * process :=
  run stdin (start s).

(** An exception [e] leaves one of the two external calls of a live query:
    the retrieval, or the generation that follows a non-empty retrieval. *)
Inductive backend_raises (query : value) (p : process) (e : exn) : Prop :=
| retrieval_raises (s : services) :
    retrieve (retrieve_request query) (clients p) = (Raise e, s) ->
    backend_raises query p e
| generation_raises (resp results : value) (context : string) (s s' : services) :
    retrieve (retrieve_request query) (clients p) = (Ok resp, s) ->
    py_get resp "retrievalResults" (VList []) = Ok results ->
    truthy results = true ->
    build_context results = Ok context ->
    invoke_model (invoke_request (build_prompt query context)) s = (Raise e, s') ->
    backend_raises query p e.

(** A passage and its source text, as the retrieval service lays it out. *)
Inductive has_text : value -> value -> Prop :=
| has_text_intro (passage content : dict) (text : value) :
    lookup "content" passage = Some (VDict content) ->
    lookup "text" content = Some text ->
    has_text (VDict passage) text.

(** The passages' texts, each under its ordinal position, counted from [i]. *)
Fixpoint labelled (i : Z) (texts : list value) : list string :=
  match texts with
  | [] => []
  | t :: ts =>
      ("Document " ++ str_of_int i ++ ": " ++ py_str t) :: labelled (i + 1) ts
  end.

(** [t] occurs in [s]. *)
Definition contains (s t : string) : Prop := exists pre post, s = pre ++ t ++ post.

(** The computation leaves [self] as it found it. *)
Definition keeps_self {A : Type} (m : M A) : Prop :=
  forall p r p', m p = (r, p') -> self p' = self p.

(** One turn of the loop that goes on to the next. *)
Inductive session_reaches : process -> process -> Prop :=
| reaches_refl (p : process) : session_reaches p p
| reaches_step (p p' p'' : process) (line : string) :
    loop_body line p = (Ok Next, p') ->
    session_reaches p' p'' ->
    session_reaches p p''.

End Server.


(** ** A concrete host for the examples

    A decoder that knows the lines used below, a plain serializer, and two
    Bedrock stand-ins whose state counts the calls made. *)

Module Demo.

Definition q (s : string) : string := dquote ++ s ++ dquote.

Definition member (k v : string) : string := q k ++ ": " ++ v.

Definition braces (members : list string) : string :=
  "{" ++ String.concat ", " members ++ "}".

(** The fourth request of [test_mcp_complete.py]. *)
Definition req_status : dict :=
  [("jsonrpc", VStr "2.0");
   ("id", VInt 4);
   ("method", VStr "tools/call");
   ("params",
    VDict
      [("name", VStr "get_timber_status");
       ("arguments", VDict [("service", VStr "api")])])].

Definition req_query (text : string) : dict :=
  [("id", VInt 2);
   ("method", VStr "tools/call");
   ("params",
    VDict
      [("name", VStr "query_timber_kb");
       ("arguments", VDict [("query", VStr text)])])].

Definition req_no_arguments : dict :=
  [("id", VInt 5);
   ("method", VStr "tools/call");
   ("params", VDict [("name", VStr "query_timber_kb")])].

Definition req_list_arguments : dict :=
  [("id", VInt 6);
   ("method", VStr "tools/call");
   ("params",
    VDict [("name", VStr "query_timber_kb"); ("arguments", VList [])])].

Definition req_tools_list : dict :=
  [("jsonrpc", VStr "2.0");
   ("id", VInt 2);
   ("method", VStr "tools/list");
   ("params", VDict [])].

Definition req_resources : dict := [("id", VInt 9); ("method", VStr "resources/list")].

Definition line_array : string := "[1, 2]" ++ nl.

Definition line_garbage : string := "{not json" ++ nl.

Definition line_blank : string := "  " ++ nl.

Definition line_tools_list : string :=
  braces
    [member "jsonrpc" (q "2.0"); member "id" "2";
     member "method" (q "tools/list"); member "params" "{}"]
  ++ nl.

Definition line_list_arguments : string :=
  braces
    [member "id" "6"; member "method" (q "tools/call");
     member "params"
       (braces [member "name" (q "query_timber_kb"); member "arguments" "[]"])]
  ++ nl.

Definition model_body : string :=
  braces
    [member "content"
       ("[" ++ braces [member "type" (q "text");
                       member "text" (q "Restart the agent.")] ++ "]")].

Definition loads (s : string) : result value :=
  if String.eqb s (strip line_array) then Ok (VList [VInt 1; VInt 2])
  else if String.eqb s (strip line_tools_list) then Ok (VDict req_tools_list)
  else if String.eqb s (strip line_list_arguments) then Ok (VDict req_list_arguments)
  else if String.eqb s model_body then
    Ok (VDict
          [("content",
            VList [VDict [("type", VStr "text");
                          ("text", VStr "Restart the agent.")]])])
  else Raise (JSONDecodeError "Expecting value").

Fixpoint escape (s : string) : string :=
  match s with
  | EmptyString => EmptyString
  | String c s' =>
      if existsb (Nat.eqb (nat_of_ascii c)) [34; 92]%nat
      then String (ascii_of_nat 92) (String c (escape s'))
      else String c (escape s')
  end.

(** A finite binary float written out in full, as a decimal. *)
Definition float_literal (f : spec_float) : string :=
  match f with
  | S754_zero s => if s then "-0.0" else "0.0"
  | S754_infinity s => if s then "-Infinity" else "Infinity"
  | S754_nan => "NaN"
  | S754_finite s m e =>
      let sign := if s then "-" else "" in
      match e with
      | Zneg k =>
          let k := Pos.to_nat k in
          let digits := str_of_int (Z.pos m * 5 ^ Z.of_nat k) in
          let digits :=
            (String.concat "" (repeat "0" (S k - String.length digits)) ++ digits)%string in
          let n := String.length digits - k in
          (sign ++ substring 0 n digits ++ "." ++ substring n k digits)%string
      | _ => (sign ++ str_of_int (Z.pos m * 2 ^ e) ++ ".0")%string
      end
  end.

Fixpoint dumps (v : value) : string :=
  match v with
  | VNone => "null"
  | VBool true => "true"
  | VBool false => "false"
  | VInt z => str_of_int z
  | VFloat f => float_literal f
  | VStr s => q (escape s)
  | VList l => "[" ++ String.concat ", " (map dumps l) ++ "]"
  | VDict d =>
      braces
        (map (fun kv : string * value =>
                let (k, x) := kv in member (escape k) (dumps x)) d)
  end.

Definition describe (e : exn) : string :=
  match e with
  | JSONDecodeError msg => msg
  | AttributeError ty attr =>
      "'" ++ ty ++ "' object has no attribute '" ++ attr ++ "'"
  | KeyError key => dumps key
  | IndexError ty => ty ++ " index out of range"
  | TypeError ty op => "'" ++ ty ++ "' object does not support " ++ op
  | Raised _ msg => msg
  end.

Definition passage (text : string) (score : spec_float) : value :=
  VDict [("content", VDict [("text", VStr text)]); ("score", VFloat score)].

Definition passages : list value :=
  [passage "Timber agents log to /var/log/timber." float_0_9;
   passage "Restart the agent after a config change." float_0_8].

Definition throttled : exn :=
  Raised "ClientError" "An error occurred (ThrottlingException)".

Definition do_retrieve (c : retrieve_call) (n : nat) : result value * nat :=
  if eq_str (retrievalQuery_text c) "outage" then (Raise throttled, S n)
  else if eq_str (retrievalQuery_text c) "nothing" then
    (Ok (VDict [("retrievalResults", VList [])]), S n)
  else (Ok (VDict [("retrievalResults", VList passages)]), S n).

Definition do_invoke_model (c : invoke_call) (n : nat) : result string * nat :=
  (Ok model_body, S n).

Definition host_of (local_mode : bool) : Host := {|
  json_loads := loads;
  json_dumps := dumps;
  repr_value := dumps;
  exn_str := describe;
  services := nat;
  retrieve := do_retrieve;
  invoke_model := do_invoke_model;
  LOCAL_MODE := local_mode;
  KNOWLEDGE_BASE_ID := "XQHHIEJ8MA";
  MODEL_ID := "anthropic.claude-3-haiku-20240307-v1:0"
|}.

Definition simulated : Host := host_of true.

Definition live : Host := host_of false.

End Demo.

(** ** Module initialisation

    The globals of the module as its top level computes them: three reads
    of [os.environ] with their defaults, and the fall back to local mode
    when the boto3 clients cannot be created. *)

(** [str.lower] on one character, for the code points below 256. *)
Definition lower_char (c : ascii) : ascii :=
  let n := nat_of_ascii c in
  if ((65 <=? n) && (n <=? 90)
      || (192 <=? n) && (n <=? 222) && negb (n =? 215))%nat
  then ascii_of_nat (n + 32)
  else c.

Fixpoint lower (s : string) : string :=
  match s with
  | EmptyString => EmptyString
  | String c s' => String (lower_char c) (lower s')
  end.

(** [os.environ.get(k, dflt)]. *)
Definition environ_get (environ : string -> option string) (k dflt : string) : string :=
  match environ k with
  | Some v => v
  | None => dflt
  end.

Record globals : Type := {
  local_mode : bool;
  knowledge_base_id : string;
  model_id : string
}.

(** [clients] is the outcome of the two [boto3.client] calls, which run
    only when the flag read from the environment is false. *)
Definition module_globals
    (environ : string -> option string) (clients : result unit) : globals :=
  let flag := String.eqb (lower (environ_get environ "LOCAL_MODE" "true")) "true" in
  {| local_mode :=
       if negb flag then
         match clients with
         | Ok _ => flag
         | Raise _ => true
         end
       else flag;
     knowledge_base_id := environ_get environ "KNOWLEDGE_BASE_ID" "XQHHIEJ8MA";
     model_id :=
       environ_get environ "MODEL_ID" "anthropic.claude-3-haiku-20240307-v1:0" |}.

(** A host whose globals are the ones the module computes. *)
Definition loaded
    (h : Host) (environ : string -> option string) (clients : result unit) : Host := {|
  json_loads := @json_loads h;
  json_dumps := @json_dumps h;
  repr_value := @repr_value h;
  exn_str := @exn_str h;
  services := @services h;
  retrieve := @retrieve h;
  invoke_model := @invoke_model h;
  LOCAL_MODE := local_mode (module_globals environ clients);
  KNOWLEDGE_BASE_ID := knowledge_base_id (module_globals environ clients);
  MODEL_ID := model_id (module_globals environ clients)
|}.

Section Streams.
Context {host : Host}.

(** A line the loop answers or skips and then goes on: a blank one, one
    that decodes to a JSON object, or one that [json.loads] rejects with a
    [JSONDecodeError]. *)
Inductive well_behaved (line : string) : Prop :=
| blank_line : line <> "" -> strip line = "" -> well_behaved line
| object_line (d : dict) :
    strip line <> "" -> json_loads (strip line) = Ok (VDict d) -> well_behaved line
| rejected_line (msg : string) :
    strip line <> "" ->
    json_loads (strip line) = Raise (JSONDecodeError msg) ->
    well_behaved line.

(** The lines with something on them besides white space. *)
Definition non_blank (lines : list string) : list string :=
  filter (fun line => negb (String.eqb (strip line) "")) lines.

(** The three shapes of an answer of [query_knowledge_base]. *)
Inductive answer_record : value -> Prop :=
| simulated_record (text : string) :
    answer_record
      (VDict
         [("response", VStr text);
          ("source", VStr "local_simulation");
          ("confidence", VFloat float_0_8)])
| plain_record (text source : string) :
    source = "knowledge_base" \/ source = "error" ->
    answer_record
      (VDict
         [("response", VStr text);
          ("source", VStr source);
          ("confidence", VFloat float_0_0)])
| generated_record (text : value) (count : Z) :
    (0 < count)%Z ->
    answer_record
      (VDict
         [("response", text);
          ("source", VStr "knowledge_base");
          ("confidence", VFloat float_0_9);
          ("retrieved_count", VInt count)]).

(** The computation leaves the component [f] of the process as it found
    it. *)
Definition preserves {A X : Type} (f : process -> X) (m : M A) : Prop :=
  forall p r p', m p = (r, p') -> f p' = f p.

End Streams.

(** ** More lines and passages for the examples *)

Module Cases.
Import Demo.

Definition req_initialize : dict :=
  [("id", VInt 1); ("method", VStr "initialize"); ("params", VDict [])].

Definition req_null_params : dict :=
  [("id", VInt 7); ("method", VStr "tools/call"); ("params", VNone)].

Definition line_initialize : string :=
  braces [member "id" "1"; member "method" (q "initialize"); member "params" "{}"]
  ++ nl.

Definition line_null_params : string :=
  braces [member "id" "7"; member "method" (q "tools/call"); member "params" "null"]
  ++ nl.

Definition line_nested : string := "[[[[[[[[" ++ nl.

Definition too_deep : exn :=
  Raised "RecursionError" "maximum recursion depth exceeded".

Definition loads (s : string) : result value :=
  if String.eqb s (strip line_initialize) then Ok (VDict req_initialize)
  else if String.eqb s (strip line_null_params) then Ok (VDict req_null_params)
  else if String.eqb s (strip line_nested) then Raise too_deep
  else Demo.loads s.

(** A passage that came back without its [content]. *)
Definition bare_passage : value := VDict [("score", VFloat float_0_8)].

Definition do_retrieve (c : retrieve_call) (n : nat) : result value * nat :=
  if eq_str (retrievalQuery_text c) "broken" then
    (Ok (VDict
           [("retrievalResults",
             VList [passage "Timber agents log to /var/log/timber." float_0_9;
                    bare_passage])]),
     S n)
  else Demo.do_retrieve c n.

Definition host_of (local_mode : bool) : Host := {|
  json_loads := loads;
  json_dumps := dumps;
  repr_value := dumps;
  exn_str := describe;
  services := nat;
  retrieve := do_retrieve;
  invoke_model := do_invoke_model;
  LOCAL_MODE := local_mode;
  KNOWLEDGE_BASE_ID := "XQHHIEJ8MA";
  MODEL_ID := "anthropic.claude-3-haiku-20240307-v1:0"
|}.

Definition simulated : Host := host_of true.

Definition live : Host := host_of false.

(** The environment of [test_mcp_server.py], with the flag in capitals. *)
Definition environ (k : string) : option string :=
  if String.eqb k "LOCAL_MODE" then Some "FALSE"
  else if String.eqb k "KNOWLEDGE_BASE_ID" then Some "XQHHIEJ8MA"
  else if String.eqb k "MODEL_ID" then Some "anthropic.claude-3-sonnet-20240229-v1:0"
  else None.

End Cases.

(** ** [upload_quip.py]

    [sanitize_title] and [download_quip_document].  The HTTP client is
    taken from the surroundings: [requests_get] stands for [requests.get]
    followed by [raise_for_status()] and [json()], and yields the decoded
    body or the exception raised on the way. *)

(** The characters of the class [sanitize_title] replaces: the two angle
    brackets, the colon, the double quote, the two slashes, the bar, the
    question mark and the star. *)
Definition forbidden (c : ascii) : bool :=
  existsb (Nat.eqb (nat_of_ascii c)) [60; 62; 58; 34; 47; 92; 124; 63; 42]%nat.

(** [re.sub] of a one character class by one character. *)
Fixpoint re_sub_class (cls : ascii -> bool) (repl : ascii) (s : string) : string :=
  match s with
  | EmptyString => EmptyString
  | String c s' =>
      String (if cls c then repl else c) (re_sub_class cls repl s')
  end.

Definition sanitize_title (title : string) : string :=
  strip (re_sub_class forbidden "_"%char title).

(** [s.split(sep)] for a separator of one character. *)
Fixpoint split_on (sep : ascii) (s : string) : list string :=
  match s with
  | EmptyString => [EmptyString]
  | String c s' =>
      if Ascii.eqb c sep then EmptyString :: split_on sep s'
      else
        match split_on sep s' with
        | piece :: pieces => String c piece :: pieces
        | [] => [String c EmptyString]
        end
  end.

(** [sub in s] for two strings. *)
Fixpoint substring_in (sub s : string) : bool :=
  String.prefix sub s
  || match s with
     | EmptyString => false
     | String _ s' => substring_in sub s'
     end.

(** [k in x] for a string [k]. *)
Definition py_contains (x : value) (k : string) : result bool :=
  match x with
  | VDict d => Ok (match lookup k d with Some _ => true | None => false end)
  | VList l => Ok (existsb (fun v => eq_str v k) l)
  | VStr s => Ok (substring_in k s)
  | _ => Raise (TypeError (type_name x) "in")
  end.

(** [s.encode('utf-8')], for the code points below 256: the bytes, as
    characters. *)
Fixpoint utf8_encode (s : string) : string :=
  match s with
  | EmptyString => EmptyString
  | String c s' =>
      let n := nat_of_ascii c in
      if (n <? 128)%nat then String c (utf8_encode s')
      else
        String (ascii_of_nat (192 + n / 64))
          (String (ascii_of_nat (128 + n mod 64)) (utf8_encode s'))
  end.

Definition slash : ascii := "/"%char.

(** The thread id the function works with, [None] as in the source: the
    fourth piece of a Quip URL cut at its slashes, or the argument itself
    when it is not a Quip URL. *)
Definition thread_id_of (url : string) : option string :=
  if String.prefix "http" url && substring_in "quip-amazon.com" url then
    let parts := split_on slash url in
    if (4 <=? List.length parts)%nat then nth_error parts 3 else None
  else Some url.

Record http_request : Type := {
  request_url : string;
  request_headers : list (string * string)
}.

Class Web : Type := {
  network : Type;
  requests_get : http_request -> network -> result value * network
}.

Section Quip.
Context {host : Host} {web : Web}.

(** The network and the requests sent so far. *)
Definition net : Type := (network * list http_request)%type.

Definition quip_request (base_url thread_id token : string) : http_request := {|
  request_url := base_url ++ "/1/threads/" ++ thread_id;
  request_headers :=
    [("Authorization", "Bearer " ++ token);
     ("Content-Type", "application/json");
     ("User-Agent",
      "Mozilla/5.0 (Macintosh; Intel Mac OS X 10_15_7) AppleWebKit/537.36 (KHTML, like Gecko) Chrome/120.0.0.0 Safari/537.36")]
|}.

Definition quip_page (title html_content : value) : string :=
  "<!DOCTYPE html>" ++ nl
  ++ "<html>" ++ nl
  ++ "<head>" ++ nl
  ++ "    <title>" ++ py_str title ++ "</title>" ++ nl
  ++ "</head>" ++ nl
  ++ "<body>" ++ nl
  ++ "    " ++ py_str html_content ++ nl
  ++ "</body>" ++ nl
  ++ "</html>".

(** What the function returns for a decoded body, or the exception that
    its handlers turn into [None]. *)
Definition page_of (thread_data : value) : result (option string) :=
  has_html <-- py_contains thread_data "html" ;;
  if has_html then
    html_content <-- getitem_str thread_data "html" ;;
    thread <-- py_get thread_data "thread" (VDict []) ;;
    title <-- py_get thread "title" (VStr "Quip Document") ;;
    Ok (Some (utf8_encode (quip_page title html_content)))
  else Ok None.

Definition download_quip_document (url token base_url : string)
  : net -> option string * net :=
  fun n =>
    match thread_id_of url with
    | None => (None, n)
    | Some thread_id =>
        if String.eqb thread_id EmptyString then (None, n)
        else
          let request := quip_request base_url thread_id token in
          let (r, w) := requests_get request (fst n) in
          let n' := (w, (snd n ++ [request])%list) in
          match r with
          | Ok thread_data =>
              match page_of thread_data with
              | Ok page => (page, n')
              | Raise _ => (None, n')
              end
          | Raise _ => (None, n')
          end
    end.

End Quip.

(** The characters of a string, and the strings without a given one. *)
Fixpoint string_forall (P : ascii -> bool) (s : string) : bool :=
  match s with
  | EmptyString => true
  | String c s' => P c && string_forall P s'
  end.

Definition no_slash (s : string) : bool :=
  string_forall (fun c => negb (Ascii.eqb c slash)) s.

Fixpoint count_char (c : ascii) (s : string) : nat :=
  match s with
  | EmptyString => 0
  | String x s' => (if Ascii.eqb x c then 1 else 0) + count_char c s'
  end.

Definition allowed (c : ascii) : bool := negb (forbidden c).

(** No white space in front. *)
Definition trimmed_left (s : string) : Prop :=
  match s with
  | EmptyString => True
  | String c _ => is_space c = false
  end.

(** An HTTP stand-in for the examples: one thread it knows, by id. *)
Module QuipCases.

Definition thread : value :=
  VDict
    [("thread", VDict [("id", VStr "AbC123"); ("title", VStr "Timber runbook")]);
     ("html", VStr "<h1>Runbook</h1>")].

Definition do_get (r : http_request) (n : nat) : result value * nat :=
  if String.eqb (request_url r) "https://platform.quip-amazon.com/1/threads/AbC123"
  then (Ok thread, S n)
  else (Raise (Raised "HTTPError" "404 Client Error: Not Found"), S n).

Definition web : Web := {| network := nat; requests_get := do_get |}.

End QuipCases.

(** ** [upload_to_s3]

    The S3 client and the HTML parser are taken from the surroundings.
    [soup_title] stands for [BeautifulSoup(content, 'html.parser')], its
    [find('title')] and the [string] of the tag found: the string when
    there is a tag and its string is not empty, [None] otherwise, or the
    exception raised on the way. *)

Inductive s3_call : Type :=
| GetBucketVersioning (bucket : string)
| PutBucketVersioning (bucket status : string)
| PutObject (bucket key body content_type : string).

Class Storage : Type := {
  s3 : Type;
  boto3_setup_default_session : string -> s3 -> result unit * s3;
  boto3_client_s3 : s3 -> result unit * s3;
  s3_get_bucket_versioning : string -> s3 -> result value * s3;
  s3_put_bucket_versioning : string -> string -> s3 -> result unit * s3;
  s3_put_object : string -> string -> string -> string -> s3 -> result unit * s3;
  soup_title : string -> result (option string)
}.

Definition is_put_object (c : s3_call) : bool :=
  match c with
  | PutObject _ _ _ _ => true
  | _ => false
  end.

Section Upload.
Context {host : Host} {storage : Storage}.

(** The state of S3, the calls made to it, and the lines printed. *)
Record store : Type := mkStore {
  buckets : s3;
  s3_log : list s3_call;
  console : list string
}.

Definition U (A : Type) : Type := store -> result A * store.

Definition unit_U {A : Type} (a : A) : U A := fun st => (Ok a, st).

Definition bind_U {A B : Type} (m : U A) (k : A -> U B) : U B :=
  fun st =>
    match m st with
    | (Ok a, st') => k a st'
    | (Raise e, st') => (Raise e, st')
    end.

Notation "x <~ m ;; k" := (bind_U m (fun x => k))
  (at level 100, m at next level, right associativity).

Definition lift_U {A : Type} (r : result A) : U A := fun st => (r, st).

Definition try_U {A : Type} (body : U A) (handler : exn -> U A) : U A :=
  fun st =>
    match body st with
    | (Ok a, st') => (Ok a, st')
    | (Raise e, st') => handler e st'
    end.

Definition say (line : string) : U unit :=
  fun st => (Ok tt, mkStore (buckets st) (s3_log st) (console st ++ [line])).

Definition s3_client : U unit :=
  fun st =>
    let (r, b) := boto3_client_s3 (buckets st) in
    (r, mkStore b (s3_log st) (console st)).

Definition get_bucket_versioning (bucket : string) : U value :=
  fun st =>
    let (r, b) := s3_get_bucket_versioning bucket (buckets st) in
    (r, mkStore b (s3_log st ++ [GetBucketVersioning bucket]) (console st)).

Definition put_bucket_versioning (bucket status : string) : U unit :=
  fun st =>
    let (r, b) := s3_put_bucket_versioning bucket status (buckets st) in
    (r, mkStore b (s3_log st ++ [PutBucketVersioning bucket status]) (console st)).

Definition put_object (bucket key body content_type : string) : U unit :=
  fun st =>
    let (r, b) := s3_put_object bucket key body content_type (buckets st) in
    (r, mkStore b (s3_log st ++ [PutObject bucket key body content_type])
          (console st)).

(** The inner [try] statement: versioning is checked, and enabled when it
    is not. *)
Definition check_versioning (bucket : string) : U unit :=
  try_U
    (versioning <~ get_bucket_versioning bucket ;;
     status <~ lift_U (py_get versioning "Status" VNone) ;;
     if negb (eq_str status "Enabled") then
       _ <~ say "Warning: Bucket versioning is not enabled. Enabling versioning..." ;;
       try_U
         (_ <~ put_bucket_versioning bucket "Enabled" ;;
          say "Bucket versioning enabled successfully")
         (fun e => say ("Could not enable bucket versioning: " ++ exn_str e))
     else unit_U tt)
    (fun e => say ("Could not check bucket versioning: " ++ exn_str e)).

(** [not x] for an optional string. *)
Definition absent (x : option string) : bool :=
  match x with
  | None => true
  | Some s => String.eqb s EmptyString
  end.

Definition named (x : option string) : string :=
  match x with
  | None => "None"
  | Some s => s
  end.

Definition upload_to_s3
    (content bucket : string) (output_name thread_id : option string)
  : store -> option string * store :=
  fun st =>
    match
      (_ <~ s3_client ;;
       _ <~ check_versioning bucket ;;
       output_name <~
         (if absent output_name then
            title <~ lift_U (soup_title content) ;;
            unit_U
              (Some (sanitize_title
                       match title with
                       | Some t => strip t
                       | None => "Quip_Document"
                       end))
          else unit_U output_name) ;;
       let s3_key :=
         if absent thread_id then "quip-content/" ++ named output_name ++ ".html"
         else "quip-content/" ++ named thread_id ++ ".html" in
       if String.eqb content EmptyString then unit_U None
       else
         _ <~ put_object bucket s3_key content "text/html" ;;
         unit_U (Some ("https://" ++ bucket ++ ".s3.amazonaws.com/" ++ s3_key)))
        st
    with
    | (Ok url, st') => (url, st')
    | (Raise _, st') => (None, st')
    end.

(** [main] of [upload_quip.py], on its parsed arguments: what it returns,
    or the exception of [boto3.setup_default_session], the one call of
    its body outside every [try]. *)
Definition quip_main
    {web : Web} (url token bucket : string) (output region : option string)
    (base_url : string)
  : net * store -> result Z * (net * store) :=
  fun state =>
    let (n, st) := state in
    let (session, b) :=
      if absent region then (Ok tt, buckets st)
      else boto3_setup_default_session (named region) (buckets st) in
    let st := mkStore b (s3_log st) (console st) in
    match session with
    | Raise e => (Raise e, (n, st))
    | Ok _ =>
        let thread_id := thread_id_of url in
        let (content, n) := download_quip_document url token base_url n in
        if absent content then (Ok 1%Z, (n, st))
        else
          let (s3_url, st) := upload_to_s3 (named content) bucket output thread_id st in
          if absent s3_url then (Ok 1%Z, (n, st)) else (Ok 0%Z, (n, st))
    end.

End Upload.

(** An S3 stand-in for the examples: its state is the list of the buckets
    with versioning on, and the bucket [locked] refuses every call. *)
Module S3Cases.

Definition versioned (bucket : string) (on : list string) : bool :=
  existsb (String.eqb bucket) on.

Definition denied : exn := Raised "ClientError" "AccessDenied".

Definition do_get_versioning (bucket : string) (on : list string)
  : result value * list string :=
  if String.eqb bucket "locked" then (Raise denied, on)
  else if versioned bucket on then (Ok (VDict [("Status", VStr "Enabled")]), on)
  else (Ok (VDict []), on).

Definition do_put_versioning (bucket status : string) (on : list string)
  : result unit * list string :=
  if String.eqb bucket "locked" then (Raise denied, on) else (Ok tt, bucket :: on).

Definition do_put_object (bucket key body content_type : string) (on : list string)
  : result unit * list string :=
  if String.eqb bucket "locked" then (Raise denied, on) else (Ok tt, on).

Definition title_of (content : string) : result (option string) :=
  if substring_in "<title>" content then Ok (Some " What is: Timber? ") else Ok None.

Definition storage : Storage := {|
  s3 := list string;
  boto3_setup_default_session := fun region on => (Ok tt, on);
  boto3_client_s3 := fun on => (Ok tt, on);
  s3_get_bucket_versioning := do_get_versioning;
  s3_put_bucket_versioning := do_put_versioning;
  s3_put_object := do_put_object;
  soup_title := title_of
|}.

End S3Cases.

(** * Properties *)

Section Properties.
Context {host : Host}.

Lemma eq_str_true (v : value) (s : string) : eq_str v s = true <-> v = VStr s.
Proof.
  destruct v; simpl; try (split; [discriminate | intros E; discriminate E]).
  rewrite String.eqb_eq. split; [intros -> | intros [= ->]]; reflexivity.
Qed.

Lemma eq_str_false (v : value) (s : string) : eq_str v s = false <-> v <> VStr s.
Proof.
  rewrite <- eq_str_true. destruct (eq_str v s); split; congruence.
Qed.

(** An answer of the live path is one of the two dict literals of the
    [try] body. *)
Lemma live_query_answers (q : value) (p p' : process) (a : value) :
  live_query q p = (Ok a, p') ->
  a = nothing_found_answer \/ exists t n, a = generated_answer t n.
Proof.
  unfold live_query, bind, lift, ret, call_retrieve, call_invoke_model.
  destruct (retrieve _ _) as [[resp | e] s]; [| discriminate].
  destruct (py_get resp _ _) as [results | e]; [| discriminate].
  destruct (negb (truthy results)).
  - intros [= <- _]. now left.
  - destruct (build_context results) as [ctx | e]; [| discriminate].
    destruct (invoke_model _ _) as [[text | e] s']; [| discriminate].
    destruct (json_loads text) as [rb | e]; [| discriminate].
    destruct (getitem_str rb _) as [content | e]; [| discriminate].
    destruct (getitem_0 content) as [first | e]; [| discriminate].
    destruct (getitem_str first _) as [t | e]; [| discriminate].
    destruct (py_len results) as [n | e]; [| discriminate].
    intros [= <- _]. right. now exists t, n.
Qed.

(** [query_knowledge_base] always returns, and what it returns has a
    ['response'] entry. *)
Lemma query_knowledge_base_returns (q : value) (p : process) :
  exists a text p',
    query_knowledge_base q p = (Ok a, p') /\ getitem_str a "response" = Ok text.
Proof.
  unfold query_knowledge_base, try_except, ret.
  destruct LOCAL_MODE.
  - eexists _, _, _. split; reflexivity.
  - destruct (live_query q p) as [[a | e] p'] eqn:E.
    + destruct (live_query_answers _ _ _ _ E) as [-> | (t & n & ->)];
        eexists _, _, _; split; reflexivity.
    + eexists _, _, _. split; reflexivity.
Qed.

(** A [tools/call] request for the registered tool whose [arguments] is a
    dict returns the answer's text in a result payload. *)
Lemma registered_tool_call (d params args : dict) (p p' : process) (a text : value) :
  dict_get d "method" VNone = VStr "tools/call" ->
  dict_get d "params" (VDict []) = VDict params ->
  dict_get params "name" VNone = VStr "query_timber_kb" ->
  dict_get params "arguments" (VDict []) = VDict args ->
  query_knowledge_base (dict_get args "query" (VStr "")) p = (Ok a, p') ->
  getitem_str a "response" = Ok text ->
  handle_request (VDict d) p
  = (Ok (success_envelope (dict_get d "id" VNone) (tool_call_result text)), p').
Proof.
  intros Hm Hp Hn Ha Hq Ht.
  unfold handle_request, tools_call, bind, lift, ret. cbn [py_get].
  rewrite Hm, Hp. cbn [eq_str String.eqb Ascii.eqb Bool.eqb andb py_get].
  rewrite Hn, Ha. cbn [eq_str String.eqb Ascii.eqb Bool.eqb andb py_get].
  rewrite Hq, Ht. reflexivity.
Qed.

(** An exception of a backend call becomes an error answer. *)
Lemma backend_failure_answer (q : value) (p : process) (e : exn) :
  LOCAL_MODE = false ->
  backend_raises q p e ->
  exists p', query_knowledge_base q p = (Ok (error_answer e), p').
Proof.
  intros Hlive Hraise.
  unfold query_knowledge_base, try_except, ret. rewrite Hlive.
  unfold live_query, bind, lift, ret, call_retrieve, call_invoke_model.
  destruct Hraise as [s Hr | resp results context s s' Hr Hg Ht Hc Hi].
  - rewrite Hr. eexists. reflexivity.
  - rewrite Hr, Hg, Ht. cbn [negb]. rewrite Hc. cbn [clients called].
    rewrite Hi. eexists. reflexivity.
Qed.

(** C1 (as the code behaves): a [tools/call] request whose [params] name
    any tool other than [query_timber_kb] reaches no [return] of its branch
    and gets the default response for unhandled methods: an error payload
    with code -32601 and the message [Method not found: tools/call], not a
    result payload. *)
Theorem unknown_tool_gets_method_not_found (d params : dict) (p : process) :
  dict_get d "method" VNone = VStr "tools/call" ->
  dict_get d "params" (VDict []) = VDict params ->
  dict_get params "name" VNone <> VStr "query_timber_kb" ->
  handle_request (VDict d) p
  = (Ok (VDict
           [("jsonrpc", VStr "2.0");
            ("id", dict_get d "id" VNone);
            ("error",
             VDict [("code", VInt (-32601));
                    ("message", VStr "Method not found: tools/call")])]),
     p).
Proof.
  intros Hm Hp Hn. apply eq_str_false in Hn.
  unfold handle_request, tools_call, bind, lift, ret. cbn [py_get].
  rewrite Hm, Hp. cbn [eq_str String.eqb Ascii.eqb Bool.eqb andb py_get].
  rewrite Hn. reflexivity.
Qed.

(** C8: a request (a dict, as [handle_request] declares) whose method is
    none of [initialize], [tools/list], [tools/call], a missing method
    included, gets an error payload with code -32601 under the id of the
    request ([None] when it has none), and nothing else happens. *)
Theorem unknown_method_not_found (d : dict) (p : process) :
  dict_get d "method" VNone <> VStr "initialize" ->
  dict_get d "method" VNone <> VStr "tools/list" ->
  dict_get d "method" VNone <> VStr "tools/call" ->
  handle_request (VDict d) p
  = (Ok (VDict
           [("jsonrpc", VStr "2.0");
            ("id", dict_get d "id" VNone);
            ("error",
             VDict [("code", VInt (-32601));
                    ("message",
                     VStr ("Method not found: "
                           ++ py_str (dict_get d "method" VNone)))])]),
     p).
Proof.
  intros H1 H2 H3.
  apply eq_str_false in H1. apply eq_str_false in H2. apply eq_str_false in H3.
  unfold handle_request, bind, lift, ret. cbn [py_get].
  rewrite H1, H2, H3. reflexivity.
Qed.

(** C3 (amended): a [tools/call] request that names [query_timber_kb] and
    whose [arguments] are absent or a dict gets a result payload with
    [isError] false around the answer's text, in both modes; and when, in
    live mode, the retrieval or the generation call raises [e], the answer
    is the error record: text [Error querying knowledge base: str(e)],
    source [error], confidence 0.0. *)
Theorem registered_tool_call_succeeds (d params args : dict) (p : process) :
  dict_get d "method" VNone = VStr "tools/call" ->
  dict_get d "params" (VDict []) = VDict params ->
  dict_get params "name" VNone = VStr "query_timber_kb" ->
  dict_get params "arguments" (VDict []) = VDict args ->
  exists (answer text : value) (p' : process),
    query_knowledge_base (dict_get args "query" (VStr "")) p = (Ok answer, p')
    /\ getitem_str answer "response" = Ok text
    /\ handle_request (VDict d) p
       = (Ok (VDict
                [("jsonrpc", VStr "2.0");
                 ("id", dict_get d "id" VNone);
                 ("result",
                  VDict
                    [("content",
                      VList [VDict [("type", VStr "text"); ("text", text)]]);
                     ("isError", VBool false)])]),
          p')
    /\ (forall e : exn,
          LOCAL_MODE = false ->
          backend_raises (dict_get args "query" (VStr "")) p e ->
          answer
          = VDict
              [("response", VStr ("Error querying knowledge base: " ++ exn_str e));
               ("source", VStr "error");
               ("confidence", VFloat (S754_zero false))]).
Proof.
  intros Hm Hp Hn Ha.
  destruct (query_knowledge_base_returns (dict_get args "query" (VStr "")) p)
    as (a & text & p' & Hq & Ht).
  exists a, text, p'. repeat split; try assumption.
  - exact (registered_tool_call _ _ _ _ _ _ _ Hm Hp Hn Ha Hq Ht).
  - intros e Hlive Hraise.
    destruct (backend_failure_answer _ _ _ Hlive Hraise) as (p'' & Hq').
    rewrite Hq in Hq'. now injection Hq' as -> _.
Qed.

(** C10: a [tools/call] request that names [query_timber_kb] and either has
    no [arguments] or has a dict of arguments without [query] is not turned
    down: the backend is queried with the empty string and the answer's
    text comes back in a result payload. *)
Theorem missing_query_defaults_to_empty (d params : dict) (p : process) :
  dict_get d "method" VNone = VStr "tools/call" ->
  dict_get d "params" (VDict []) = VDict params ->
  dict_get params "name" VNone = VStr "query_timber_kb" ->
  lookup "arguments" params = None
  \/ (exists args, lookup "arguments" params = Some (VDict args)
                   /\ lookup "query" args = None) ->
  exists (answer text : value) (p' : process),
    query_knowledge_base (VStr "") p = (Ok answer, p')
    /\ getitem_str answer "response" = Ok text
    /\ handle_request (VDict d) p
       = (Ok (VDict
                [("jsonrpc", VStr "2.0");
                 ("id", dict_get d "id" VNone);
                 ("result",
                  VDict
                    [("content",
                      VList [VDict [("type", VStr "text"); ("text", text)]]);
                     ("isError", VBool false)])]),
          p').
Proof.
  intros Hm Hp Hn Hargs.
  destruct (query_knowledge_base_returns (VStr "") p) as (a & text & p' & Hq & Ht).
  exists a, text, p'. repeat split; try assumption.
  destruct Hargs as [Hnone | (args & Hsome & Hquery)].
  - apply (registered_tool_call d params [] p p' a text); try assumption.
    unfold dict_get. now rewrite Hnone.
  - apply (registered_tool_call d params args p p' a text); try assumption.
    + unfold dict_get. now rewrite Hsome.
    + unfold dict_get. now rewrite Hquery.
Qed.

Lemma append_assoc (a b c : string) : (a ++ b) ++ c = a ++ b ++ c.
Proof. induction a as [| x a IH]; simpl; [reflexivity | now rewrite IH]. Qed.

Lemma append_empty (a : string) : a ++ "" = a.
Proof. induction a as [| x a IH]; simpl; [reflexivity | now rewrite IH]. Qed.

Lemma contains_middle (pre t post : string) : contains (pre ++ t ++ post) t.
Proof. now exists pre, post. Qed.

(** C5: in simulated mode a query text is answered on the spot, with no
    call to either client and nothing else changed: the text is the fixed
    prefix followed by the query, so it contains the query; the source is
    [local_simulation]; the confidence is the float 0.8. *)
Theorem simulated_query_answer (text : string) (p : process) :
  LOCAL_MODE = true ->
  query_knowledge_base (VStr text) p
  = (Ok (VDict
           [("response", VStr ("[LOCAL MODE] Simulated response for: " ++ text));
            ("source", VStr "local_simulation");
            ("confidence", VFloat float_0_8)]),
     p)
  /\ contains ("[LOCAL MODE] Simulated response for: " ++ text) text
  /\ nearest_tenths float_0_8 8.
Proof.
  intros Hlocal. unfold query_knowledge_base. rewrite Hlocal. repeat split.
  - exists "[LOCAL MODE] Simulated response for: ", "".
    now rewrite append_empty.
  - simpl. lia.
  - simpl. lia.
Qed.

(** C4: in live mode, when the retrieval returns no passage (an empty
    [retrievalResults], or none at all), the answer is the nothing-found
    text with source [knowledge_base] and confidence 0.0, and the only call
    made is the retrieval: the generation endpoint is not invoked. *)
Theorem no_passages_short_circuit (q : value) (p : process) (resp : dict) (s : services) :
  LOCAL_MODE = false ->
  retrieve
    {| knowledgeBaseId := KNOWLEDGE_BASE_ID;
       retrievalQuery_text := q;
       numberOfResults := 5 |}
    (clients p)
  = (Ok (VDict resp), s) ->
  dict_get resp "retrievalResults" (VList []) = VList [] ->
  exists p' : process,
    query_knowledge_base q p
    = (Ok (VDict
             [("response",
               VStr "No relevant information found in the Timber knowledge base.");
              ("source", VStr "knowledge_base");
              ("confidence", VFloat (S754_zero false))]),
       p')
    /\ api_log p'
       = (api_log p
          ++ [Retrieve
                {| knowledgeBaseId := KNOWLEDGE_BASE_ID;
                   retrievalQuery_text := q;
                   numberOfResults := 5 |}])%list
    /\ clients p' = s
    /\ stdout p' = stdout p.
Proof.
  intros Hlive Hr Hnone.
  unfold query_knowledge_base, try_except. rewrite Hlive.
  unfold live_query, bind, lift, ret, call_retrieve, retrieve_request.
  rewrite Hr. cbn [py_get]. rewrite Hnone. cbn [truthy negb].
  eexists. repeat split.
Qed.

Lemma documents_labelled (passages texts : list value) :
  Forall2 has_text passages texts ->
  forall i : nat, documents i passages = Ok (labelled (Z.of_nat i + 1) texts).
Proof.
  induction 1 as [| psg t passages texts Ht _ IH]; intros i.
  - reflexivity.
  - destruct Ht as [pd content t Hc Htext].
    cbn [documents getitem_str rbind]. rewrite Hc. cbn [getitem_str rbind].
    rewrite Htext, IH. cbn [rbind labelled]. unfold document.
    now rewrite Nat2Z.inj_succ, <- Z.add_1_r.
Qed.

(** C6: in live mode, when the retrieval returns a non-empty list of
    passages, each with its text, then: the retrieval was asked for 5
    results; the context is the passages' texts, each under [Document n:]
    with [n] counted from 1, joined by blank lines; exactly one generation
    call follows, carrying [max_tokens] 1000 and a single user message, a
    prompt that contains the query and that context; and whenever that call
    returns a body whose first content segment has a text, the answer
    carries that text, source [knowledge_base], confidence 0.9 and the
    number of passages. *)
Theorem passages_answered_by_generation
    (q : value) (p : process) (resp : dict) (s : services)
    (passages texts : list value) :
  let context := String.concat (nl ++ nl) (labelled 1 texts) in
  let prompt := build_prompt q context in
  let retrieval :=
    {| knowledgeBaseId := KNOWLEDGE_BASE_ID;
       retrievalQuery_text := q;
       numberOfResults := 5 |} in
  let generation :=
    {| modelId := MODEL_ID;
       body :=
         json_dumps
           (VDict
              [("anthropic_version", VStr "bedrock-2023-05-31");
               ("max_tokens", VInt 1000);
               ("messages",
                VList [VDict [("role", VStr "user"); ("content", VStr prompt)]])])
    |} in
  LOCAL_MODE = false ->
  retrieve retrieval (clients p) = (Ok (VDict resp), s) ->
  lookup "retrievalResults" resp = Some (VList passages) ->
  passages <> [] ->
  Forall2 has_text passages texts ->
  exists (record : value) (p' : process),
    query_knowledge_base q p = (Ok record, p')
    /\ api_log p' = (api_log p ++ [Retrieve retrieval; InvokeModel generation])%list
    /\ clients p' = snd (invoke_model generation s)
    /\ contains prompt (py_str q)
    /\ contains prompt context
    /\ (forall (body_text : string) (s' : services)
               (response_body segment : dict) (more : list value) (answer : value),
          invoke_model generation s = (Ok body_text, s') ->
          json_loads body_text = Ok (VDict response_body) ->
          lookup "content" response_body = Some (VList (VDict segment :: more)) ->
          lookup "text" segment = Some answer ->
          record
          = VDict
              [("response", answer);
               ("source", VStr "knowledge_base");
               ("confidence", VFloat float_0_9);
               ("retrieved_count", VInt (Z.of_nat (List.length passages)))])
    /\ nearest_tenths float_0_9 9.
Proof.
  intros context prompt retrieval generation Hlive Hr Hres Hne Htexts.
  assert (Hrun :
    query_knowledge_base q p
    = match invoke_model generation s with
      | (Ok body_text, s') =>
          let p' := called (InvokeModel generation) s' (called (Retrieve retrieval) s p) in
          match
            (response_body <-- json_loads body_text ;;
             content <-- getitem_str response_body "content" ;;
             first <-- getitem_0 content ;;
             response_text <-- getitem_str first "text" ;;
             Ok (generated_answer response_text (Z.of_nat (List.length passages))))
          with
          | Ok record => (Ok record, p')
          | Raise e => (Ok (error_answer e), p')
          end
      | (Raise e, s') =>
          (Ok (error_answer e),
           called (InvokeModel generation) s' (called (Retrieve retrieval) s p))
      end).
  { unfold query_knowledge_base, try_except. rewrite Hlive.
    unfold live_query, bind, lift, ret, call_retrieve, call_invoke_model.
    fold retrieval in Hr. change (retrieve_request q) with retrieval.
    rewrite Hr. cbn [py_get]. unfold dict_get. rewrite Hres.
    destruct passages as [| psg passages]; [congruence |].
    cbn [truthy negb]. unfold build_context. cbn [py_iter rbind].
    rewrite (documents_labelled _ _ Htexts 0). cbn [rbind Z.of_nat Z.add].
    fold context. fold prompt. change (invoke_request prompt) with generation.
    cbn [clients called].
    destruct (invoke_model generation s) as [[body_text | e] s']; [| reflexivity].
    cbv zeta. unfold rbind.
    destruct (json_loads body_text) as [rb | e]; [| reflexivity].
    destruct (getitem_str rb "content") as [content | e]; [| reflexivity].
    destruct (getitem_0 content) as [first | e]; [| reflexivity].
    destruct (getitem_str first "text") as [t | e]; reflexivity. }
  assert (Hstate : exists record p',
             query_knowledge_base q p = (Ok record, p')
             /\ p' = called (InvokeModel generation) (snd (invoke_model generation s))
                       (called (Retrieve retrieval) s p)).
  { rewrite Hrun. destruct (invoke_model generation s) as [[body_text | e] s'].
    - cbv zeta.
      destruct (rbind (json_loads body_text) _); eexists _, _; split; reflexivity.
    - eexists _, _; split; reflexivity. }
  destruct Hstate as (record & p' & Hq & Hp').
  exists record, p'. split; [exact Hq |]. subst p'. repeat split.
  - cbn [api_log called]. now rewrite <- app_assoc.
  - unfold prompt, build_prompt.
    exists ("Based on the following Timber documentation, answer the user's question: "
            ++ dquote).
    eexists. rewrite append_assoc. reflexivity.
  - unfold prompt, build_prompt.
    exists ("Based on the following Timber documentation, answer the user's question: "
            ++ dquote ++ py_str q ++ dquote ++ nl ++ nl ++ "Documentation:" ++ nl).
    eexists. rewrite !append_assoc. reflexivity.
  - intros body_text s' rb segment more answer Hi Hbody Hcontent Htext.
    rewrite Hrun, Hi in Hq. cbv zeta in Hq. unfold rbind in Hq.
    rewrite Hbody in Hq. cbn [getitem_str] in Hq. rewrite Hcontent in Hq.
    cbn [getitem_0 getitem_str] in Hq. rewrite Htext in Hq.
    now injection Hq as <-.
  - simpl. lia.
  - simpl. lia.
Qed.

(** *** The read loop *)

Lemma strip_empty : strip "" = "".
Proof. reflexivity. Qed.

Lemma not_empty_eqb (s : string) : s <> "" -> String.eqb s "" = false.
Proof. intros H. now apply String.eqb_neq. Qed.

(** A line with something on it besides white space reaches the inner
    [try] statement, and the loop goes on unless an exception leaves it. *)
Lemma loop_body_handles (line : string) (p : process) :
  strip line <> "" ->
  loop_body line p
  = match handle_line (strip line) p with
    | (Ok _, p') => (Ok Next, p')
    | (Raise e, p') => (Raise e, p')
    end.
Proof.
  intros Hs. unfold loop_body.
  assert (Hl : line <> "") by (intros ->; now apply Hs).
  rewrite (not_empty_eqb _ Hl), (not_empty_eqb _ Hs).
  unfold bind, ret. now destruct (handle_line (strip line) p) as [[[] | e] p'].
Qed.

(** C7 (amended): a line that is not blank and that [json.loads] rejects
    with a [JSONDecodeError] gets one line of output, the error payload
    with code -32700, message [Parse error] and a null id; nothing else
    changes, and the loop goes on with the lines that follow. *)
Theorem unparseable_line_gets_parse_error
    (line msg : string) (rest : list stdin_event) (p : process) :
  strip line <> "" ->
  json_loads (strip line) = Raise (JSONDecodeError msg) ->
  let reply :=
    VDict
      [("jsonrpc", VStr "2.0");
       ("id", VNone);
       ("error", VDict [("code", VInt (-32700)); ("message", VStr "Parse error")])] in
  let p' :=
    mkProcess (self p) (clients p) (api_log p)
      (stdout p ++ [json_dumps reply]) (request_var p) in
  loop_body line p = (Ok Next, p')
  /\ loop (Line line :: rest) p = loop rest p'.
Proof.
  intros Hs Hbad reply p'.
  assert (Hturn : loop_body line p = (Ok Next, p')).
  { rewrite (loop_body_handles _ _ Hs).
    unfold handle_line, try_except, bind, lift. now rewrite Hbad. }
  split; [exact Hturn |].
  cbn [loop]. unfold bind at 1. now rewrite Hturn.
Qed.

(** C2 (as the code behaves): a line that decodes to JSON other than an
    object ends the process.  The [AttributeError] of [request.get] is
    caught by the inner handler, which calls [request.get] again for the
    id; that second exception leaves the loop, and [run] ends with
    [sys.exit(1)]: nothing is printed for the line and the lines after it
    are never read. *)
Theorem non_object_line_ends_the_process
    (line : string) (v : value) (rest : list stdin_event) (p : process) :
  strip line <> "" ->
  json_loads (strip line) = Ok v ->
  (forall d : dict, v <> VDict d) ->
  run (Line line :: rest) p
  = (SysExit 1,
     mkProcess (self p) (clients p) (api_log p) (stdout p) (Some v)).
Proof.
  intros Hs Hv Hnot.
  assert (Hget : forall k dflt,
             py_get v k dflt = Raise (AttributeError (type_name v) "get")).
  { intros k dflt. destruct v; try reflexivity. now destruct (Hnot d). }
  unfold run. cbn [loop]. unfold bind at 1.
  rewrite (loop_body_handles _ _ Hs).
  unfold handle_line, try_except, bind, lift, set_request, get_request.
  rewrite Hv, Hget. cbn [is_JSONDecodeError request_var bound].
  now rewrite Hget.
Qed.

(** On a dict, [handle_request] raises only through a [.get] on a
    parameter that is not a dict, before any call to a client. *)
Lemma handle_request_raises (d : dict) (p p1 : process) (e : exn) :
  handle_request (VDict d) p = (Raise e, p1) ->
  p1 = p /\ exists ty, e = AttributeError ty "get".
Proof.
  unfold handle_request, tools_call, bind, lift, ret, get_tools. cbn [py_get].
  destruct (eq_str (dict_get d "method" VNone) "initialize"); [discriminate |].
  destruct (eq_str (dict_get d "method" VNone) "tools/list"); [discriminate |].
  destruct (eq_str (dict_get d "method" VNone) "tools/call"); [| discriminate].
  destruct (dict_get d "params" (VDict [])) as [| b | z | f | t | l | params];
    cbn [py_get type_name]; try (intros [= <- <-]; split; eauto).
  destruct (eq_str (dict_get params "name" VNone) "query_timber_kb"); [| discriminate].
  destruct (dict_get params "arguments" (VDict [])) as [| b | z | f | t | l | args];
    cbn [py_get type_name]; try (intros [= <- <-]; split; eauto).
  destruct (query_knowledge_base_returns (dict_get args "query" (VStr "")) p)
    as (a & text & p' & Hq & Ht).
  rewrite Hq, Ht. discriminate.
Qed.

(** A line that decodes to a JSON object always gets exactly one line of
    output and the loop goes on: the response of [handle_request], or, when
    it raises, the error payload with code -32603 under the request's id. *)
Lemma object_line_is_answered (line : string) (d : dict) (p : process) :
  strip line <> "" ->
  json_loads (strip line) = Ok (VDict d) ->
  exists (reply : value) (p1 : process),
    loop_body line p = (Ok Next, printed (json_dumps reply) p1)
    /\ (handle_request (VDict d) (bound (VDict d) p) = (Ok reply, p1)
        \/ (exists e, handle_request (VDict d) (bound (VDict d) p) = (Raise e, p1))
           /\ reply = error_envelope (dict_get d "id" VNone) (-32603) "Internal error").
Proof.
  intros Hs Hd. rewrite (loop_body_handles _ _ Hs).
  unfold handle_line, try_except, bind, lift, set_request, get_request.
  rewrite Hd. cbn [py_get].
  destruct (handle_request (VDict d) (bound (VDict d) p)) as [[reply | e] p1] eqn:E.
  - exists reply, p1. split; [reflexivity | now left].
  - destruct (handle_request_raises _ _ _ _ E) as (-> & ty & ->).
    cbn [is_JSONDecodeError request_var bound py_get].
    eexists _, _. split; [reflexivity |]. right. split; [now exists (AttributeError ty "get") | reflexivity].
Qed.

(** *** The registry is never written *)

Lemma keeps_ret {A : Type} (a : A) : keeps_self (ret a).
Proof. intros p r p' [= _ <-]. reflexivity. Qed.

Lemma keeps_lift {A : Type} (r : result A) : keeps_self (lift r).
Proof. intros p r' p' [= _ <-]. reflexivity. Qed.

Lemma keeps_bind {A B : Type} (m : M A) (k : A -> M B) :
  keeps_self m -> (forall a, keeps_self (k a)) -> keeps_self (bind m k).
Proof.
  intros Hm Hk p r p'. unfold bind.
  destruct (m p) as [[a | e] p1] eqn:E; intros H.
  - rewrite (Hk a _ _ _ H). exact (Hm _ _ _ E).
  - injection H as _ <-. exact (Hm _ _ _ E).
Qed.

Lemma keeps_try_except {A : Type} (m : M A) (h : exn -> M A) :
  keeps_self m -> (forall e, keeps_self (h e)) -> keeps_self (try_except m h).
Proof.
  intros Hm Hh p r p'. unfold try_except.
  destruct (m p) as [[a | e] p1] eqn:E; intros H.
  - injection H as _ <-. exact (Hm _ _ _ E).
  - rewrite (Hh e _ _ _ H). exact (Hm _ _ _ E).
Qed.

Lemma keeps_call_retrieve (c : retrieve_call) : keeps_self (call_retrieve c).
Proof.
  intros p r p'. unfold call_retrieve.
  destruct (retrieve c (clients p)). intros [= _ <-]. reflexivity.
Qed.

Lemma keeps_call_invoke_model (c : invoke_call) : keeps_self (call_invoke_model c).
Proof.
  intros p r p'. unfold call_invoke_model.
  destruct (invoke_model c (clients p)). intros [= _ <-]. reflexivity.
Qed.

Lemma keeps_print (line : string) : keeps_self (print line).
Proof. intros p r p' [= _ <-]. reflexivity. Qed.

Lemma keeps_set_request (v : value) : keeps_self (set_request v).
Proof. intros p r p' [= _ <-]. reflexivity. Qed.

Lemma keeps_get_request : keeps_self get_request.
Proof. intros p r p' [= _ <-]. reflexivity. Qed.

Lemma keeps_get_tools : keeps_self get_tools.
Proof. intros p r p' [= _ <-]. reflexivity. Qed.

Create HintDb keeps discriminated.

#[local] Hint Resolve keeps_ret keeps_lift keeps_call_retrieve
  keeps_call_invoke_model keeps_print keeps_set_request keeps_get_request
  keeps_get_tools : keeps.

Ltac keeps :=
  repeat
    (cbv zeta;
     first
       [ solve [auto with keeps]
       | apply keeps_bind; [| intros ?]
       | apply keeps_try_except; [| intros ?]
       | match goal with
         | |- keeps_self (if ?b then _ else _) => destruct b
         | |- keeps_self (match ?x with _ => _ end) => destruct x
         end ]).

Lemma query_knowledge_base_keeps_self (q : value) :
  keeps_self (query_knowledge_base q).
Proof. unfold query_knowledge_base, live_query. keeps. Qed.

Lemma handle_request_keeps_self (request : value) :
  keeps_self (handle_request request).
Proof.
  pose proof query_knowledge_base_keeps_self.
  unfold handle_request, tools_call. keeps.
Qed.

Lemma loop_body_keeps_self (line : string) : keeps_self (loop_body line).
Proof.
  pose proof handle_request_keeps_self.
  unfold loop_body, handle_line. keeps.
Qed.

Lemma session_keeps_self (p p' : process) :
  session_reaches p p' -> self p' = self p.
Proof.
  induction 1 as [p | p p' p'' line Hturn _ IH]; [reflexivity |].
  rewrite IH. exact (loop_body_keeps_self _ _ _ _ Hturn).
Qed.

(** What a [tools/list] line prints, from any state of the process. *)
Lemma tools_list_turn (line : string) (d : dict) (p : process) :
  strip line <> "" ->
  json_loads (strip line) = Ok (VDict d) ->
  dict_get d "method" VNone = VStr "tools/list" ->
  loop_body line p
  = (Ok Next,
     mkProcess (self p) (clients p) (api_log p)
       (stdout p
        ++ [json_dumps
              (success_envelope (dict_get d "id" VNone)
                 (tools_list_result (tools (self p))))])
       (Some (VDict d))).
Proof.
  intros Hs Hd Hm. rewrite (loop_body_handles _ _ Hs).
  unfold handle_line, try_except, bind, lift, set_request.
  rewrite Hd. cbn [py_get].
  unfold handle_request, bind, lift, ret, get_tools. cbn [py_get].
  rewrite Hm. reflexivity.
Qed.

(** C9: when the same [tools/list] request is read at two moments of one
    session, whatever was handled in between, the two lines printed are
    the same string, with the same result payload, the values of
    [self.tools]; for no turn of the loop writes [self.tools]. *)
Theorem tools_list_idempotent (line1 line2 : string) (d : dict) (p1 p2 : process) :
  session_reaches p1 p2 ->
  strip line1 <> "" ->
  strip line2 <> "" ->
  json_loads (strip line1) = Ok (VDict d) ->
  json_loads (strip line2) = Ok (VDict d) ->
  dict_get d "method" VNone = VStr "tools/list" ->
  let payload := VDict [("tools", VList (map snd (tools (self p1))))] in
  let reply :=
    VDict
      [("jsonrpc", VStr "2.0");
       ("id", dict_get d "id" VNone);
       ("result", payload)] in
  loop_body line1 p1
  = (Ok Next,
     mkProcess (self p1) (clients p1) (api_log p1)
       (stdout p1 ++ [json_dumps reply]) (Some (VDict d)))
  /\ loop_body line2 p2
     = (Ok Next,
        mkProcess (self p2) (clients p2) (api_log p2)
          (stdout p2 ++ [json_dumps reply]) (Some (VDict d)))
  /\ tools (self p2) = tools (self p1).
Proof.
  intros Hreach Hs1 Hs2 Hd1 Hd2 Hm payload reply.
  pose proof (session_keeps_self _ _ Hreach) as Hself.
  split; [| split].
  - exact (tools_list_turn _ _ p1 Hs1 Hd1 Hm).
  - rewrite (tools_list_turn _ _ p2 Hs2 Hd2 Hm), Hself. reflexivity.
  - now rewrite Hself.
Qed.

End Properties.

(** * Concrete runs *)

Module Runs.
Import Demo.

(** The fourth request of [test_mcp_complete.py], which names the tool
    [get_timber_status]. *)
Lemma unknown_tool_run :
  @handle_request simulated (VDict req_status) (@start simulated 0%nat)
  = (Ok (VDict
           [("jsonrpc", VStr "2.0");
            ("id", VInt 4);
            ("error",
             VDict [("code", VInt (-32601));
                    ("message", VStr "Method not found: tools/call")])]),
     @start simulated 0%nat).
Proof.
  apply (@unknown_tool_gets_method_not_found simulated req_status
           [("name", VStr "get_timber_status");
            ("arguments", VDict [("service", VStr "api")])]);
    [reflexivity | reflexivity | discriminate].
Defined.

Lemma unknown_method_run :
  @handle_request simulated (VDict req_resources) (@start simulated 0%nat)
  = (Ok (VDict
           [("jsonrpc", VStr "2.0");
            ("id", VInt 9);
            ("error",
             VDict [("code", VInt (-32601));
                    ("message", VStr "Method not found: resources/list")])]),
     @start simulated 0%nat).
Proof.
  apply (@unknown_method_not_found simulated req_resources); discriminate.
Defined.

(** A line holding a JSON array, followed by a [tools/list] request that is
    never answered. *)
Lemma array_line_run :
  @run simulated [Line line_array; Line line_tools_list] (@start simulated 0%nat)
  = (SysExit 1,
     @mkProcess simulated MCPServer_init 0%nat [] [] (Some (VList [VInt 1; VInt 2]))).
Proof.
  apply (@non_object_line_ends_the_process simulated line_array
           (VList [VInt 1; VInt 2]));
    [discriminate | reflexivity | discriminate].
Defined.

(** C3, as stated, fails: the request names [query_timber_kb] and passes a
    list as [arguments]; [arguments.get] raises, no response is returned,
    and the line printed for it is the error payload with code -32603. *)
Lemma list_arguments_rejected :
  @handle_request simulated (VDict req_list_arguments) (@start simulated 0%nat)
  = (Raise (AttributeError "list" "get"), @start simulated 0%nat)
  /\ @main simulated 0%nat [Line line_list_arguments]
     = (Returned,
        @mkProcess simulated MCPServer_init 0%nat []
          [dumps
             (VDict
                [("jsonrpc", VStr "2.0");
                 ("id", VInt 6);
                 ("error",
                  VDict [("code", VInt (-32603));
                         ("message", VStr "Internal error")])])]
          (Some (VDict req_list_arguments))).
Proof. split; reflexivity. Qed.

Lemma registered_tool_run :
  exists (answer text : value) (p' : process),
    @query_knowledge_base live (VStr "outage") (@start live 0%nat) = (Ok answer, p')
    /\ getitem_str answer "response" = Ok text
    /\ @handle_request live (VDict (req_query "outage")) (@start live 0%nat)
       = (Ok (VDict
                [("jsonrpc", VStr "2.0");
                 ("id", VInt 2);
                 ("result",
                  VDict
                    [("content",
                      VList [VDict [("type", VStr "text"); ("text", text)]]);
                     ("isError", VBool false)])]),
          p')
    /\ (forall e : exn,
          @LOCAL_MODE live = false ->
          @backend_raises live (VStr "outage") (@start live 0%nat) e ->
          answer
          = VDict
              [("response",
                VStr ("Error querying knowledge base: " ++ @exn_str live e));
               ("source", VStr "error");
               ("confidence", VFloat (S754_zero false))]).
Proof.
  apply (@registered_tool_call_succeeds live (req_query "outage")
           [("name", VStr "query_timber_kb");
            ("arguments", VDict [("query", VStr "outage")])]
           [("query", VStr "outage")]);
    reflexivity.
Defined.

Lemma missing_arguments_run :
  exists (answer text : value) (p' : process),
    @query_knowledge_base simulated (VStr "") (@start simulated 0%nat)
    = (Ok answer, p')
    /\ getitem_str answer "response" = Ok text
    /\ @handle_request simulated (VDict req_no_arguments) (@start simulated 0%nat)
       = (Ok (VDict
                [("jsonrpc", VStr "2.0");
                 ("id", VInt 5);
                 ("result",
                  VDict
                    [("content",
                      VList [VDict [("type", VStr "text"); ("text", text)]]);
                     ("isError", VBool false)])]),
          p').
Proof.
  apply (@missing_query_defaults_to_empty simulated req_no_arguments
           [("name", VStr "query_timber_kb")]);
    [reflexivity | reflexivity | reflexivity | left; reflexivity].
Defined.

(** The second scenario of the specification: the query [ping]. *)
Lemma ping_run :
  @query_knowledge_base simulated (VStr "ping") (@start simulated 0%nat)
  = (Ok (VDict
           [("response", VStr "[LOCAL MODE] Simulated response for: ping");
            ("source", VStr "local_simulation");
            ("confidence", VFloat float_0_8)]),
     @start simulated 0%nat)
  /\ contains "[LOCAL MODE] Simulated response for: ping" "ping"
  /\ nearest_tenths float_0_8 8.
Proof.
  apply (@simulated_query_answer simulated "ping"). reflexivity.
Defined.

Lemma nothing_found_run :
  exists p' : process,
    @query_knowledge_base live (VStr "nothing") (@start live 0%nat)
    = (Ok (VDict
             [("response",
               VStr "No relevant information found in the Timber knowledge base.");
              ("source", VStr "knowledge_base");
              ("confidence", VFloat (S754_zero false))]),
       p')
    /\ api_log p'
       = [Retrieve
            {| knowledgeBaseId := "XQHHIEJ8MA";
               retrievalQuery_text := VStr "nothing";
               numberOfResults := 5 |}]
    /\ clients p' = 1%nat
    /\ stdout p' = [].
Proof.
  apply (@no_passages_short_circuit live (VStr "nothing") (@start live 0%nat)
           [("retrievalResults", VList [])] 1%nat);
    reflexivity.
Defined.

Definition demo_texts : list value :=
  [VStr "Timber agents log to /var/log/timber.";
   VStr "Restart the agent after a config change."].

Definition demo_context : string :=
  "Document 1: Timber agents log to /var/log/timber." ++ nl ++ nl
  ++ "Document 2: Restart the agent after a config change.".

Lemma generation_run :
  let prompt := @build_prompt live (VStr "how") demo_context in
  let generation := @invoke_request live prompt in
  exists (record : value) (p' : process),
    @query_knowledge_base live (VStr "how") (@start live 0%nat) = (Ok record, p')
    /\ api_log p'
       = [Retrieve (@retrieve_request live (VStr "how")); InvokeModel generation]
    /\ clients p' = 2%nat
    /\ contains prompt "how"
    /\ contains prompt demo_context
    /\ (forall (body_text : string) (s' : nat)
               (response_body segment : dict) (more : list value) (answer : value),
          do_invoke_model generation 1%nat = (Ok body_text, s') ->
          loads body_text = Ok (VDict response_body) ->
          lookup "content" response_body = Some (VList (VDict segment :: more)) ->
          lookup "text" segment = Some answer ->
          record
          = VDict
              [("response", answer);
               ("source", VStr "knowledge_base");
               ("confidence", VFloat float_0_9);
               ("retrieved_count", VInt 2)])
    /\ nearest_tenths float_0_9 9.
Proof.
  apply (@passages_answered_by_generation live (VStr "how") (@start live 0%nat)
           [("retrievalResults", VList passages)] 1%nat passages demo_texts);
    try reflexivity.
  - discriminate.
  - repeat constructor; econstructor; reflexivity.
Defined.

(** C7, as stated, fails on a blank line: [json.loads] rejects it, before
    and after stripping, yet the loop skips it and prints nothing. *)
Lemma blank_line_is_skipped :
  @json_loads simulated line_blank = Raise (JSONDecodeError "Expecting value")
  /\ @json_loads simulated (strip line_blank)
     = Raise (JSONDecodeError "Expecting value")
  /\ @main simulated 0%nat [Line line_blank] = (Returned, @start simulated 0%nat).
Proof. repeat split. Qed.

Lemma garbage_line_run :
  let reply :=
    VDict
      [("jsonrpc", VStr "2.0");
       ("id", VNone);
       ("error", VDict [("code", VInt (-32700)); ("message", VStr "Parse error")])] in
  let p' := @mkProcess simulated MCPServer_init 0%nat [] [dumps reply] None in
  @loop_body simulated line_garbage (@start simulated 0%nat) = (Ok Next, p')
  /\ @loop simulated [Line line_garbage; Line line_tools_list] (@start simulated 0%nat)
     = @loop simulated [Line line_tools_list] p'.
Proof.
  apply (@unparseable_line_gets_parse_error simulated line_garbage
           "Expecting value" [Line line_tools_list] (@start simulated 0%nat));
    [discriminate | reflexivity].
Defined.

(** Two [tools/list] lines with a rejected line between them. *)
Lemma tools_list_twice_run :
  let p1 := @start simulated 0%nat in
  let p2 :=
    @mkProcess simulated MCPServer_init 0%nat []
      [dumps (success_envelope (VInt 2) (tools_list_result (tools MCPServer_init)));
       dumps parse_error_response]
      (Some (VDict req_tools_list)) in
  let reply :=
    VDict
      [("jsonrpc", VStr "2.0");
       ("id", VInt 2);
       ("result", VDict [("tools", VList (map snd (tools MCPServer_init)))])] in
  @loop_body simulated line_tools_list p1
  = (Ok Next,
     @mkProcess simulated MCPServer_init 0%nat [] (stdout p1 ++ [dumps reply])
       (Some (VDict req_tools_list)))
  /\ @loop_body simulated line_tools_list p2
     = (Ok Next,
        @mkProcess simulated MCPServer_init 0%nat [] (stdout p2 ++ [dumps reply])
          (Some (VDict req_tools_list)))
  /\ tools (self p2) = tools (self p1).
Proof.
  intros p1 p2 reply.
  apply (@tools_list_idempotent simulated line_tools_list line_tools_list
           req_tools_list p1 p2).
  - apply (@reaches_step simulated p1
             (@mkProcess simulated MCPServer_init 0%nat [] [dumps reply]
                (Some (VDict req_tools_list)))
             p2 line_tools_list); [reflexivity |].
    apply (@reaches_step simulated _ p2 p2 line_garbage); [reflexivity |].
    apply reaches_refl.
  - discriminate.
  - discriminate.
  - reflexivity.
  - reflexivity.
  - reflexivity.
Defined.

End Runs.

(** * Further properties of the server *)

Section Coverage.
Context {host : Host}.

(** *** What a request leaves untouched *)

Section Preserved.
Context {X : Type} (f : process -> X).
Hypothesis f_called : forall c s p, f (called c s p) = f p.

Lemma preserves_ret {A : Type} (a : A) : preserves f (ret a).
Proof. intros p r p' [= _ <-]. reflexivity. Qed.

Lemma preserves_lift {A : Type} (r : result A) : preserves f (lift r).
Proof. intros p r' p' [= _ <-]. reflexivity. Qed.

Lemma preserves_get_tools : preserves f get_tools.
Proof. intros p r p' [= _ <-]. reflexivity. Qed.

Lemma preserves_bind {A B : Type} (m : M A) (k : A -> M B) :
  preserves f m -> (forall a, preserves f (k a)) -> preserves f (bind m k).
Proof.
  intros Hm Hk p r p'. unfold bind.
  destruct (m p) as [[a | e] p1] eqn:E; intros H.
  - rewrite (Hk a _ _ _ H). exact (Hm _ _ _ E).
  - injection H as _ <-. exact (Hm _ _ _ E).
Qed.

Lemma preserves_try_except {A : Type} (m : M A) (h : exn -> M A) :
  preserves f m -> (forall e, preserves f (h e)) -> preserves f (try_except m h).
Proof.
  intros Hm Hh p r p'. unfold try_except.
  destruct (m p) as [[a | e] p1] eqn:E; intros H.
  - injection H as _ <-. exact (Hm _ _ _ E).
  - rewrite (Hh e _ _ _ H). exact (Hm _ _ _ E).
Qed.

Lemma preserves_call_retrieve (c : retrieve_call) : preserves f (call_retrieve c).
Proof.
  intros p r p'. unfold call_retrieve.
  destruct (retrieve c (clients p)). intros [= _ <-]. apply f_called.
Qed.

Lemma preserves_call_invoke_model (c : invoke_call) :
  preserves f (call_invoke_model c).
Proof.
  intros p r p'. unfold call_invoke_model.
  destruct (invoke_model c (clients p)). intros [= _ <-]. apply f_called.
Qed.

Ltac preserved :=
  repeat
    (cbv zeta;
     first
       [ apply preserves_ret
       | apply preserves_lift
       | apply preserves_get_tools
       | apply preserves_call_retrieve
       | apply preserves_call_invoke_model
       | assumption
       | apply preserves_bind; [| intros ?]
       | apply preserves_try_except; [| intros ?]
       | match goal with
         | |- preserves f (if ?b then _ else _) => destruct b
         | |- preserves f (match ?x with _ => _ end) => destruct x
         end ]).

Lemma query_knowledge_base_preserves (q : value) :
  preserves f (query_knowledge_base q).
Proof. unfold query_knowledge_base, live_query. preserved. Qed.

Lemma handle_request_preserves (request : value) :
  preserves f (handle_request request).
Proof.
  pose proof query_knowledge_base_preserves as Hq.
  unfold handle_request, tools_call.
  repeat
    (cbv zeta;
     first
       [ apply preserves_ret
       | apply preserves_lift
       | apply preserves_get_tools
       | apply Hq
       | apply preserves_bind; [| intros ?]
       | match goal with
         | |- preserves f (if ?b then _ else _) => destruct b
         | |- preserves f (match ?x with _ => _ end) => destruct x
         end ]).
Qed.

End Preserved.

(** [handle_request] prints nothing and does not touch the variable
    [request] of [run]. *)
Lemma handle_request_stdout (request : value) (p p' : process) (r : result value) :
  handle_request request p = (r, p') -> stdout p' = stdout p.
Proof. apply (handle_request_preserves stdout); reflexivity. Qed.

(** *** The dispatcher *)

(** X1: an [initialize] request is always answered with the protocol
    version, the [tools] capability and the name and version of the server,
    under the id of the request, whatever its [params] hold; no client is
    called and nothing else changes. *)
Theorem initialize_always_succeeds (d : dict) (p : process) :
  dict_get d "method" VNone = VStr "initialize" ->
  handle_request (VDict d) p
  = (Ok (VDict
           [("jsonrpc", VStr "2.0");
            ("id", dict_get d "id" VNone);
            ("result",
             VDict
               [("protocolVersion", VStr "2024-11-05");
                ("capabilities", VDict [("tools", VDict [])]);
                ("serverInfo",
                 VDict [("name", VStr "bedrock-kb-retrieval");
                        ("version", VStr "1.0.0")])])]),
     p).
Proof.
  intros Hm. unfold handle_request, bind, lift, ret. cbn [py_get].
  rewrite Hm. reflexivity.
Qed.

(** X2: at any moment of a session started by [main], [tools/list]
    returns one descriptor per key of the registry, in order, each under
    the name it is registered under, and no key occurs twice. *)
Theorem tools_list_names_registry (s : services) (d : dict) (p : process) :
  session_reaches (start s) p ->
  dict_get d "method" VNone = VStr "tools/list" ->
  exists descriptors : list value,
    handle_request (VDict d) p
    = (Ok (VDict
             [("jsonrpc", VStr "2.0");
              ("id", dict_get d "id" VNone);
              ("result", VDict [("tools", VList descriptors)])]),
       p)
    /\ map (fun t => getitem_str t "name") descriptors
       = map (fun k => Ok (VStr k)) (map fst (tools (self p)))
    /\ NoDup (map fst (tools (self p)))
    /\ map fst (tools (self p)) = ["query_timber_kb"].
Proof.
  intros Hreach Hm.
  pose proof (session_keeps_self _ _ Hreach) as Hself. cbn [self start] in Hself.
  exists (map snd (tools (self p))). split; [| rewrite Hself; repeat split].
  - unfold handle_request, bind, lift, ret, get_tools. cbn [py_get].
    rewrite Hm. reflexivity.
  - repeat constructor. intros [].
Qed.

(** X3: a [tools/call] request whose [params] are present and not an
    object (null, a list, a string, a number) gets the error payload with
    code -32603 under the id of the request; no client is called and the
    loop goes on. *)
Theorem malformed_tools_call_internal_error (line : string) (d : dict) (p : process) :
  strip line <> "" ->
  json_loads (strip line) = Ok (VDict d) ->
  dict_get d "method" VNone = VStr "tools/call" ->
  (forall params : dict, dict_get d "params" (VDict []) <> VDict params) ->
  loop_body line p
  = (Ok Next,
     mkProcess (self p) (clients p) (api_log p)
       (stdout p
        ++ [json_dumps
              (VDict
                 [("jsonrpc", VStr "2.0");
                  ("id", dict_get d "id" VNone);
                  ("error",
                   VDict [("code", VInt (-32603));
                          ("message", VStr "Internal error")])])])
       (Some (VDict d))).
Proof.
  intros Hs Hd Hm Hparams. rewrite (loop_body_handles _ _ Hs).
  unfold handle_line, try_except, bind, lift, set_request, get_request.
  rewrite Hd. cbn [py_get].
  unfold handle_request, tools_call, bind, lift, ret. cbn [py_get].
  rewrite Hm. cbn [eq_str String.eqb Ascii.eqb Bool.eqb andb].
  destruct (dict_get d "params" (VDict [])) as [| b | z | f | t | l | params];
    try reflexivity.
  now destruct (Hparams params).
Qed.

(** *** The read loop *)

(** X4: when [json.loads] raises something other than a
    [JSONDecodeError], the error payload with code -32603 goes out under
    the id of the last request that was decoded before, which the variable
    [request] still holds, or under a null id when no line was decoded
    yet; the loop goes on. *)
Theorem internal_error_reuses_last_request
    (line : string) (e : exn) (id : value) (p : process) :
  strip line <> "" ->
  json_loads (strip line) = Raise e ->
  is_JSONDecodeError e = false ->
  (request_var p = None /\ id = VNone)
  \/ (exists d : dict, request_var p = Some (VDict d) /\ id = dict_get d "id" VNone) ->
  loop_body line p
  = (Ok Next,
     mkProcess (self p) (clients p) (api_log p)
       (stdout p
        ++ [json_dumps
              (VDict
                 [("jsonrpc", VStr "2.0");
                  ("id", id);
                  ("error",
                   VDict [("code", VInt (-32603));
                          ("message", VStr "Internal error")])])])
       (request_var p)).
Proof.
  intros Hs Hbad He Hlast. rewrite (loop_body_handles _ _ Hs).
  unfold handle_line, try_except, bind, lift, get_request, ret, print, printed.
  rewrite Hbad, He. destruct p as [srv cl log out last]. cbn [request_var] in *.
  destruct Hlast as [[-> ->] | (d & -> & ->)]; reflexivity.
Qed.

(** What one well behaved line does: the loop goes on, and the output
    grows by one line unless the line is blank. *)
Lemma well_behaved_turn (line : string) (p : process) :
  well_behaved line ->
  exists (p' : process) (replies : list string),
    loop_body line p = (Ok Next, p')
    /\ stdout p' = (stdout p ++ replies)%list
    /\ List.length replies = List.length (non_blank [line]).
Proof.
  intros [Hl Hblank | d Hs Hd | msg Hs Hbad].
  - exists p, []. unfold loop_body, non_blank. cbn [filter].
    rewrite (not_empty_eqb _ Hl), Hblank. cbn.
    now rewrite app_nil_r.
  - destruct (object_line_is_answered line d p Hs Hd) as (reply & p1 & Hturn & Hh).
    exists (printed (json_dumps reply) p1), [json_dumps reply].
    assert (Hout : stdout p1 = stdout p).
    { destruct Hh as [Hh | [[e Hh] _]];
        now rewrite (handle_request_stdout _ _ _ _ Hh). }
    repeat split; [exact Hturn | cbn [stdout printed]; now rewrite Hout |].
    unfold non_blank. cbn [filter]. now rewrite (not_empty_eqb _ Hs).
  - exists (printed (json_dumps parse_error_response) p),
      [json_dumps parse_error_response].
    repeat split.
    + rewrite (loop_body_handles _ _ Hs).
      unfold handle_line, try_except, bind, lift. now rewrite Hbad.
    + unfold non_blank. cbn [filter]. now rewrite (not_empty_eqb _ Hs).
Qed.

Lemma non_blank_cons (line : string) (lines : list string) :
  non_blank (line :: lines) = (non_blank [line] ++ non_blank lines)%list.
Proof. unfold non_blank. cbn [filter]. now destruct (negb _). Qed.

(** X5: a stream of well behaved lines (each blank, a JSON object, or
    rejected by the decoder) is served to its end: [run] returns, so the
    process ends with status 0, and exactly one line was printed for each
    line that is not blank, after what was printed before. *)
Theorem well_behaved_stream_served (lines : list string) (p : process) :
  Forall well_behaved lines ->
  exists (p' : process) (replies : list string),
    run (map Line lines) p = (Returned, p')
    /\ stdout p' = (stdout p ++ replies)%list
    /\ List.length replies = List.length (non_blank lines).
Proof.
  intros Hall. revert p.
  induction Hall as [| line lines Hline _ IH]; intros p.
  - exists p, []. repeat split. now rewrite app_nil_r.
  - destruct (well_behaved_turn line p Hline) as (p1 & r1 & Hturn & Hout1 & Hlen1).
    destruct (IH p1) as (p' & r & Hrun & Hout & Hlen).
    exists p', (r1 ++ r)%list. repeat split.
    + unfold run in *. cbn [map loop]. unfold bind at 1. now rewrite Hturn.
    + now rewrite Hout, Hout1, app_assoc.
    + now rewrite non_blank_cons, !length_app, Hlen1, Hlen.
Qed.

Lemma loop_until_interrupt (pre rest : list stdin_event) (p : process) :
  (exists b b' p', loop (pre ++ Interrupt :: rest) p = (Ok b, p')
                   /\ loop pre p = (Ok b', p'))
  \/ (exists e p', loop (pre ++ Interrupt :: rest) p = (Raise e, p')
                  /\ loop pre p = (Raise e, p')).
Proof.
  revert p. induction pre as [| [line |] pre IH]; intros p.
  - left. now exists true, false, p.
  - cbn [app loop]. unfold bind.
    destruct (loop_body line p) as [[[] | e] p1].
    + apply IH.
    + left. now exists false, false, p1.
    + right. now exists e, p1.
  - left. now exists true, true, p.
Qed.

(** X6: a [KeyboardInterrupt] while the process waits for a line ends
    [run] as the end of the stream would at that point: same output, same
    exit status, and nothing of what was still to come is read. *)
Theorem interrupt_ends_session (pre rest : list stdin_event) (p : process) :
  run (pre ++ Interrupt :: rest) p = run pre p.
Proof.
  unfold run.
  destruct (loop_until_interrupt pre rest p)
    as [(b & b' & p' & -> & ->) | (e & p' & -> & ->)]; reflexivity.
Qed.

(** *** [query_knowledge_base] *)

Lemma live_query_footprint (q : value) (p p' : process) (r : result value) :
  live_query q p = (r, p') ->
  self p' = self p /\ stdout p' = stdout p /\ request_var p' = request_var p
  /\ (api_log p' = (api_log p ++ [Retrieve (retrieve_request q)])%list
      \/ exists prompt,
           api_log p'
           = (api_log p
              ++ [Retrieve (retrieve_request q); InvokeModel (invoke_request prompt)])%list).
Proof.
  unfold live_query, bind, lift, ret, call_retrieve, call_invoke_model.
  destruct (retrieve _ _) as [[resp | e] s];
    [| intros [= _ <-]; repeat split; now left].
  destruct (py_get resp _ _) as [results | e];
    [| intros [= _ <-]; repeat split; now left].
  destruct (negb (truthy results));
    [intros [= _ <-]; repeat split; now left |].
  destruct (build_context results) as [ctx | e];
    [| intros [= _ <-]; repeat split; now left].
  assert (Hlog : forall s',
             api_log (called (InvokeModel (invoke_request (build_prompt q ctx))) s'
                        (called (Retrieve (retrieve_request q)) s p))
             = (api_log p
                ++ [Retrieve (retrieve_request q);
                    InvokeModel (invoke_request (build_prompt q ctx))])%list).
  { intros s'. cbn [api_log called]. now rewrite <- app_assoc. }
  cbn [clients called].
  destruct (invoke_model _ _) as [[text | e] s'];
    [| intros [= _ <-]; repeat split; right; eexists; apply Hlog].
  destruct (json_loads text) as [rb | e];
    [| intros [= _ <-]; repeat split; right; eexists; apply Hlog].
  destruct (getitem_str rb _) as [content | e];
    [| intros [= _ <-]; repeat split; right; eexists; apply Hlog].
  destruct (getitem_0 content) as [first | e];
    [| intros [= _ <-]; repeat split; right; eexists; apply Hlog].
  destruct (getitem_str first _) as [t | e];
    [| intros [= _ <-]; repeat split; right; eexists; apply Hlog].
  destruct (py_len results) as [n | e];
    intros [= _ <-]; repeat split; right; eexists; apply Hlog.
Qed.

(** X7: a query never raises, prints nothing and leaves the registry and
    the variable [request] alone.  In local mode it calls no client; in
    live mode it makes the retrieval call for the query and after it at
    most one generation call, and no other. *)
Theorem query_footprint (q : value) (p : process) :
  exists (a : value) (p' : process) (calls : list api_call),
    query_knowledge_base q p = (Ok a, p')
    /\ self p' = self p
    /\ stdout p' = stdout p
    /\ request_var p' = request_var p
    /\ api_log p' = (api_log p ++ calls)%list
    /\ (if LOCAL_MODE then calls = []
        else calls = [Retrieve (retrieve_request q)]
             \/ exists prompt,
                  calls = [Retrieve (retrieve_request q);
                           InvokeModel (invoke_request prompt)]).
Proof.
  unfold query_knowledge_base, try_except, ret.
  destruct LOCAL_MODE.
  - exists (simulated_answer q), p, []. repeat split. now rewrite app_nil_r.
  - destruct (live_query q p) as [r p'] eqn:E.
    destruct (live_query_footprint _ _ _ _ E) as (Hself & Hout & Hvar & Hlog).
    assert (Hcalls : exists calls,
               api_log p' = (api_log p ++ calls)%list
               /\ (calls = [Retrieve (retrieve_request q)]
                   \/ exists prompt,
                        calls = [Retrieve (retrieve_request q);
                                 InvokeModel (invoke_request prompt)])).
    { destruct Hlog as [Hlog | [prompt Hlog]]; eexists; split; eauto. }
    destruct Hcalls as (calls & Hlog' & Hshape).
    destruct r as [a | e]; eexists _, p', calls; repeat split; eauto.
Qed.

Lemma truthy_len (results : value) (n : Z) :
  truthy results = true -> py_len results = Ok n -> (0 < n)%Z.
Proof.
  destruct results as [| b | z | f | t | l | d]; cbn [py_len]; try discriminate.
  - destruct t; [discriminate |]. intros _ [= <-]. cbn [String.length]. lia.
  - destruct l; [discriminate |]. intros _ [= <-]. cbn [List.length]. lia.
  - destruct d; [discriminate |]. intros _ [= <-]. cbn [List.length]. lia.
Qed.

Lemma live_query_records (q : value) (p p' : process) (a : value) :
  live_query q p = (Ok a, p') -> answer_record a.
Proof.
  unfold live_query, bind, lift, ret, call_retrieve, call_invoke_model.
  destruct (retrieve _ _) as [[resp | e] s]; [| discriminate].
  destruct (py_get resp _ _) as [results | e]; [| discriminate].
  destruct (truthy results) eqn:Ht; cbn [negb].
  - destruct (build_context results) as [ctx | e]; [| discriminate].
    destruct (invoke_model _ _) as [[text | e] s']; [| discriminate].
    destruct (json_loads text) as [rb | e]; [| discriminate].
    destruct (getitem_str rb _) as [content | e]; [| discriminate].
    destruct (getitem_0 content) as [first | e]; [| discriminate].
    destruct (getitem_str first _) as [t | e]; [| discriminate].
    destruct (py_len results) as [n | e] eqn:Hn; [| discriminate].
    intros [= <- _]. apply generated_record. exact (truthy_len _ _ Ht Hn).
  - intros [= <- _]. apply plain_record. now left.
Qed.

(** X8: every answer is a record of one of three shapes: a text with
    source [local_simulation] and confidence 0.8; a text with source
    [knowledge_base] or [error] and confidence 0.0; or the generated value
    with source [knowledge_base], confidence 0.9 and a positive
    [retrieved_count].  Only the last has a [retrieved_count]. *)
Theorem answers_are_records (q : value) (p : process) :
  exists (a : value) (p' : process),
    query_knowledge_base q p = (Ok a, p') /\ answer_record a.
Proof.
  unfold query_knowledge_base, try_except, ret.
  destruct LOCAL_MODE.
  - eexists _, _. split; [reflexivity | apply simulated_record].
  - destruct (live_query q p) as [[a | e] p'] eqn:E.
    + eexists _, _. split; [reflexivity | exact (live_query_records _ _ _ _ E)].
    + eexists _, _. split; [reflexivity | apply plain_record; now right].
Qed.

Lemma documents_stop (good texts : list value) (bad : dict) (rest : list value) :
  Forall2 has_text good texts ->
  lookup "content" bad = None ->
  forall i : nat,
    documents i (good ++ VDict bad :: rest) = Raise (KeyError (VStr "content")).
Proof.
  intros Hgood Hbad.
  induction Hgood as [| psg t good texts Ht _ IH]; intros i.
  - cbn [app documents getitem_str rbind]. now rewrite Hbad.
  - destruct Ht as [pd content t Hc Htext].
    cbn [app documents getitem_str rbind]. rewrite Hc. cbn [getitem_str rbind].
    now rewrite Htext, IH.
Qed.

(** X9: in live mode, when one of the passages retrieved has no
    [content], whatever the others hold before it being in order, the
    answer is the error record for the [KeyError] on [content], and the
    retrieval is the only call made: nothing is sent to the generation
    endpoint. *)
Theorem passage_without_content
    (q : value) (p : process) (resp bad : dict) (s : services)
    (good texts rest : list value) :
  LOCAL_MODE = false ->
  retrieve
    {| knowledgeBaseId := KNOWLEDGE_BASE_ID;
       retrievalQuery_text := q;
       numberOfResults := 5 |}
    (clients p)
  = (Ok (VDict resp), s) ->
  lookup "retrievalResults" resp = Some (VList (good ++ VDict bad :: rest)) ->
  Forall2 has_text good texts ->
  lookup "content" bad = None ->
  exists p' : process,
    query_knowledge_base q p
    = (Ok (VDict
             [("response",
               VStr ("Error querying knowledge base: "
                     ++ exn_str (KeyError (VStr "content"))));
              ("source", VStr "error");
              ("confidence", VFloat (S754_zero false))]),
       p')
    /\ api_log p'
       = (api_log p
          ++ [Retrieve
                {| knowledgeBaseId := KNOWLEDGE_BASE_ID;
                   retrievalQuery_text := q;
                   numberOfResults := 5 |}])%list
    /\ clients p' = s.
Proof.
  intros Hlive Hr Hres Hgood Hbad.
  unfold query_knowledge_base, try_except. rewrite Hlive.
  unfold live_query, bind, lift, ret, call_retrieve, retrieve_request.
  rewrite Hr. cbn [py_get]. unfold dict_get. rewrite Hres.
  assert (Htruthy : truthy (VList (good ++ VDict bad :: rest)) = true)
    by now destruct good.
  rewrite Htruthy. cbn [negb]. unfold build_context. cbn [py_iter rbind].
  rewrite (documents_stop _ _ _ _ Hgood Hbad 0). cbn [rbind].
  eexists. repeat split.
Qed.

(** *** Module initialisation *)

(** X10: with the globals as the module computes them, a query reaches a
    Bedrock client only if [LOCAL_MODE] is set in the environment to
    something other than [true], in any letter case, and the boto3 clients
    could be created; in every other case no call is made. *)
Theorem bedrock_only_when_configured
    (environ : string -> option string) (setup : result unit)
    (q a : value) (p p' : @process (loaded host environ setup)) :
  @query_knowledge_base (loaded host environ setup) q p = (Ok a, p') ->
  api_log p' <> api_log p ->
  exists flag : string,
    environ "LOCAL_MODE" = Some flag
    /\ lower flag <> "true"
    /\ setup = Ok tt.
Proof.
  unfold query_knowledge_base. cbn [LOCAL_MODE loaded local_mode module_globals].
  unfold environ_get.
  destruct (environ "LOCAL_MODE") as [flag |].
  - destruct (String.eqb (lower flag) "true") eqn:Hflag; cbn [negb].
    + intros [= _ <-] Hlog. now destruct Hlog.
    + destruct setup as [[] | e].
      * intros _ _. exists flag. repeat split. now apply String.eqb_neq.
      * intros [= _ <-] Hlog. now destruct Hlog.
  - cbn. intros [= _ <-] Hlog. now destruct Hlog.
Qed.

End Coverage.

(** * Concrete runs, continued *)

Module MoreRuns.
Import Demo.

(** The first scenario of the specification. *)
Lemma initialize_run :
  @handle_request Cases.simulated (VDict Cases.req_initialize)
    (@start Cases.simulated 0%nat)
  = (Ok (VDict
           [("jsonrpc", VStr "2.0");
            ("id", VInt 1);
            ("result",
             VDict
               [("protocolVersion", VStr "2024-11-05");
                ("capabilities", VDict [("tools", VDict [])]);
                ("serverInfo",
                 VDict [("name", VStr "bedrock-kb-retrieval");
                        ("version", VStr "1.0.0")])])]),
     @start Cases.simulated 0%nat).
Proof.
  apply (@initialize_always_succeeds Cases.simulated Cases.req_initialize).
  reflexivity.
Defined.

Definition after_initialize : @process Cases.simulated :=
  @mkProcess Cases.simulated MCPServer_init 0%nat []
    [dumps (success_envelope (VInt 1) initialize_result)]
    (Some (VDict Cases.req_initialize)).

Lemma tools_list_registry_run :
  exists descriptors : list value,
    @handle_request Cases.simulated (VDict req_tools_list) after_initialize
    = (Ok (VDict
             [("jsonrpc", VStr "2.0");
              ("id", VInt 2);
              ("result", VDict [("tools", VList descriptors)])]),
       after_initialize)
    /\ map (fun t => getitem_str t "name") descriptors
       = map (fun k => Ok (VStr k)) (map fst (tools MCPServer_init))
    /\ NoDup (map fst (tools MCPServer_init))
    /\ map fst (tools MCPServer_init) = ["query_timber_kb"].
Proof.
  apply (@tools_list_names_registry Cases.simulated 0%nat req_tools_list
           after_initialize).
  - apply (@reaches_step Cases.simulated _ after_initialize after_initialize
             Cases.line_initialize); [reflexivity | apply reaches_refl].
  - reflexivity.
Defined.

Lemma null_params_run :
  @loop_body Cases.simulated Cases.line_null_params (@start Cases.simulated 0%nat)
  = (Ok Next,
     @mkProcess Cases.simulated MCPServer_init 0%nat []
       [dumps
          (VDict
             [("jsonrpc", VStr "2.0");
              ("id", VInt 7);
              ("error",
               VDict [("code", VInt (-32603));
                      ("message", VStr "Internal error")])])]
       (Some (VDict Cases.req_null_params))).
Proof.
  apply (@malformed_tools_call_internal_error Cases.simulated
           Cases.line_null_params Cases.req_null_params
           (@start Cases.simulated 0%nat));
    [discriminate | reflexivity | reflexivity | discriminate].
Defined.

(** A line nested too deep for the decoder, read after the [initialize]
    request with id 1 was answered. *)
Lemma stale_id_run :
  @loop_body Cases.simulated Cases.line_nested after_initialize
  = (Ok Next,
     @mkProcess Cases.simulated MCPServer_init 0%nat []
       [dumps (success_envelope (VInt 1) initialize_result);
        dumps
          (VDict
             [("jsonrpc", VStr "2.0");
              ("id", VInt 1);
              ("error",
               VDict [("code", VInt (-32603));
                      ("message", VStr "Internal error")])])]
       (Some (VDict Cases.req_initialize))).
Proof.
  apply (@internal_error_reuses_last_request Cases.simulated Cases.line_nested
           Cases.too_deep (VInt 1) after_initialize);
    [discriminate | reflexivity | reflexivity |].
  right. exists Cases.req_initialize. split; reflexivity.
Defined.

Definition stream : list string :=
  [Cases.line_initialize; line_blank; line_garbage; Cases.line_null_params;
   line_tools_list].

Lemma stream_run :
  exists (p' : @process Cases.simulated) (replies : list string),
    @run Cases.simulated (map Line stream) (@start Cases.simulated 0%nat)
    = (Returned, p')
    /\ stdout p' = replies
    /\ List.length replies = 4%nat.
Proof.
  apply (@well_behaved_stream_served Cases.simulated stream
           (@start Cases.simulated 0%nat)).
  unfold stream. repeat apply Forall_cons; [| | | | | apply Forall_nil].
  - apply (@object_line Cases.simulated _ Cases.req_initialize);
      [discriminate | reflexivity].
  - apply (@blank_line Cases.simulated); [discriminate | reflexivity].
  - apply (@rejected_line Cases.simulated _ "Expecting value");
      [discriminate | reflexivity].
  - apply (@object_line Cases.simulated _ Cases.req_null_params);
      [discriminate | reflexivity].
  - apply (@object_line Cases.simulated _ req_tools_list);
      [discriminate | reflexivity].
Defined.

Lemma bare_passage_run :
  exists p' : @process Cases.live,
    @query_knowledge_base Cases.live (VStr "broken") (@start Cases.live 0%nat)
    = (Ok (VDict
             [("response",
               VStr ("Error querying knowledge base: "
                     ++ describe (KeyError (VStr "content"))));
              ("source", VStr "error");
              ("confidence", VFloat (S754_zero false))]),
       p')
    /\ api_log p'
       = [Retrieve
            {| knowledgeBaseId := "XQHHIEJ8MA";
               retrievalQuery_text := VStr "broken";
               numberOfResults := 5 |}]
    /\ clients p' = 1%nat.
Proof.
  apply (@passage_without_content Cases.live (VStr "broken")
           (@start Cases.live 0%nat)
           [("retrievalResults",
             VList [passage "Timber agents log to /var/log/timber." float_0_9;
                    Cases.bare_passage])]
           [("score", VFloat float_0_8)] 1%nat
           [passage "Timber agents log to /var/log/timber." float_0_9]
           [VStr "Timber agents log to /var/log/timber."] []);
    try reflexivity.
  repeat constructor. econstructor; reflexivity.
Defined.

(** The environment of [test_mcp_server.py] with the flag in capitals, the
    clients created: the query goes to Bedrock. *)
Lemma configured_run :
  exists flag : string,
    Cases.environ "LOCAL_MODE" = Some flag
    /\ lower flag <> "true"
    /\ Ok tt = Ok tt.
Proof.
  apply (@bedrock_only_when_configured simulated Cases.environ (Ok tt)
           (VStr "how")
           (VDict
              [("response", VStr "Restart the agent.");
               ("source", VStr "knowledge_base");
               ("confidence", VFloat float_0_9);
               ("retrieved_count", VInt 2)])
           (@start (loaded simulated Cases.environ (Ok tt)) 0%nat)
           (snd (@query_knowledge_base (loaded simulated Cases.environ (Ok tt))
                   (VStr "how")
                   (@start (loaded simulated Cases.environ (Ok tt)) 0%nat))));
    [reflexivity | discriminate].
Defined.

End MoreRuns.

(** * Properties of [upload_quip.py] *)

Section QuipProperties.
Context {host : Host} {web : Web}.

(** *** [sanitize_title] *)

Lemma re_sub_class_allowed (s : string) :
  string_forall allowed (re_sub_class forbidden "_"%char s) = true.
Proof.
  induction s as [| c s IH]; [reflexivity |].
  cbn [re_sub_class string_forall]. rewrite IH, andb_true_r.
  unfold allowed. destruct (forbidden c) eqn:E; [reflexivity | now rewrite E].
Qed.

Lemma re_sub_class_fixed (s : string) :
  string_forall allowed s = true -> re_sub_class forbidden "_"%char s = s.
Proof.
  induction s as [| c s IH]; [reflexivity |].
  cbn [re_sub_class string_forall]. intros [Hc Hs]%andb_prop.
  unfold allowed in Hc. apply negb_true_iff in Hc. now rewrite Hc, IH.
Qed.

Lemma re_sub_class_length (s : string) :
  String.length (re_sub_class forbidden "_"%char s) = String.length s.
Proof. induction s as [| c s IH]; cbn; [reflexivity | now rewrite IH]. Qed.

Lemma lstrip_forall (P : ascii -> bool) (s : string) :
  string_forall P s = true -> string_forall P (lstrip s) = true.
Proof.
  induction s as [| c s IH]; [reflexivity |].
  cbn [lstrip]. intros H. destruct (is_space c); [| exact H].
  apply IH. cbn [string_forall] in H. now apply andb_prop in H.
Qed.

Lemma rstrip_forall (P : ascii -> bool) (s : string) :
  string_forall P s = true -> string_forall P (rstrip s) = true.
Proof.
  induction s as [| c s IH]; [reflexivity |].
  cbn [rstrip string_forall]. intros [Hc Hs]%andb_prop. specialize (IH Hs).
  destruct (rstrip s) as [| x r].
  - destruct (is_space c); [reflexivity |]. cbn [string_forall]. now rewrite Hc.
  - cbn [string_forall] in *. now rewrite Hc, IH.
Qed.

Lemma lstrip_length (s : string) : String.length (lstrip s) <= String.length s.
Proof.
  induction s as [| c s IH]; [reflexivity |].
  cbn [lstrip]. destruct (is_space c); cbn [String.length]; lia.
Qed.

Lemma rstrip_length (s : string) : String.length (rstrip s) <= String.length s.
Proof.
  induction s as [| c s IH]; [reflexivity |].
  cbn [rstrip]. destruct (rstrip s) as [| x r].
  - destruct (is_space c); cbn [String.length]; lia.
  - cbn [String.length] in *. lia.
Qed.

Lemma lstrip_trimmed (s : string) : trimmed_left (lstrip s).
Proof.
  induction s as [| c s IH]; [exact I |].
  cbn [lstrip]. destruct (is_space c) eqn:E; [exact IH | exact E].
Qed.

Lemma lstrip_fixed (s : string) : trimmed_left s -> lstrip s = s.
Proof. destruct s as [| c s]; [reflexivity |]. cbn. now intros ->. Qed.

Lemma rstrip_trimmed (s : string) : trimmed_left s -> trimmed_left (rstrip s).
Proof.
  destruct s as [| c s]; [exact (fun H => H) |].
  cbn [rstrip trimmed_left]. intros Hc.
  destruct (rstrip s); [rewrite Hc |]; exact Hc.
Qed.

Lemma rstrip_cons (c : ascii) (s : string) :
  rstrip (String c s)
  = match rstrip s with
    | EmptyString => if is_space c then EmptyString else String c EmptyString
    | String x r => String c (String x r)
    end.
Proof. reflexivity. Qed.

Lemma rstrip_idempotent (s : string) : rstrip (rstrip s) = rstrip s.
Proof.
  induction s as [| c s IH]; [reflexivity |].
  rewrite rstrip_cons. destruct (rstrip s) as [| x r] eqn:E.
  - destruct (is_space c) eqn:Hc; [reflexivity |].
    rewrite rstrip_cons. cbn [rstrip]. now rewrite Hc.
  - rewrite rstrip_cons, IH. reflexivity.
Qed.

Lemma strip_idempotent (s : string) : strip (strip s) = strip s.
Proof.
  unfold strip.
  rewrite (lstrip_fixed (rstrip (lstrip s))).
  - apply rstrip_idempotent.
  - apply rstrip_trimmed, lstrip_trimmed.
Qed.

Lemma sanitize_title_allowed (title : string) :
  string_forall allowed (sanitize_title title) = true.
Proof.
  unfold sanitize_title, strip.
  apply rstrip_forall, lstrip_forall, re_sub_class_allowed.
Qed.

Lemma sanitize_title_stripped (title : string) :
  strip (sanitize_title title) = sanitize_title title.
Proof. unfold sanitize_title. apply strip_idempotent. Qed.

(** X11: a sanitized title holds none of the nine characters the function
    replaces and no white space at either end; sanitizing it again changes
    nothing; and it is never longer than the title. *)
Theorem sanitize_title_clean (title : string) :
  string_forall (fun c => negb (forbidden c)) (sanitize_title title) = true
  /\ strip (sanitize_title title) = sanitize_title title
  /\ sanitize_title (sanitize_title title) = sanitize_title title
  /\ String.length (sanitize_title title) <= String.length title.
Proof.
  pose proof (sanitize_title_allowed title) as Hallowed.
  repeat split.
  - exact Hallowed.
  - apply sanitize_title_stripped.
  - unfold sanitize_title at 1. rewrite (re_sub_class_fixed _ Hallowed).
    apply sanitize_title_stripped.
  - unfold sanitize_title, strip.
    pose proof (rstrip_length (lstrip (re_sub_class forbidden "_"%char title))).
    pose proof (lstrip_length (re_sub_class forbidden "_"%char title)).
    pose proof (re_sub_class_length title). lia.
Qed.

(** *** The thread id *)

Lemma split_on_nonempty (c : ascii) (s : string) : split_on c s <> [].
Proof.
  destruct s as [| x s]; cbn [split_on]; [discriminate |].
  destruct (Ascii.eqb x c); [discriminate |].
  destruct (split_on c s); discriminate.
Qed.

Lemma split_on_length (c : ascii) (s : string) :
  List.length (split_on c s) = S (count_char c s).
Proof.
  induction s as [| x s IH]; [reflexivity |].
  cbn [split_on count_char]. destruct (Ascii.eqb x c).
  - cbn [List.length]. now rewrite IH.
  - destruct (split_on c s) as [| piece pieces]; [discriminate IH |].
    cbn [List.length] in *. lia.
Qed.

Lemma split_on_whole (s : string) :
  no_slash s = true -> split_on slash s = [s].
Proof.
  induction s as [| x s IH]; [reflexivity |].
  unfold no_slash. cbn [string_forall split_on]. intros [Hx Hs]%andb_prop.
  apply negb_true_iff in Hx. rewrite Hx, (IH Hs). reflexivity.
Qed.

Lemma split_on_piece (a b : string) :
  no_slash a = true ->
  split_on slash (a ++ String slash b) = a :: split_on slash b.
Proof.
  induction a as [| x a IH]; [reflexivity |].
  unfold no_slash. cbn [string_forall append split_on]. intros [Hx Ha]%andb_prop.
  apply negb_true_iff in Hx. rewrite Hx, (IH Ha). reflexivity.
Qed.

Lemma quip_url_pieces (a b h id rest : string) :
  no_slash a = true ->
  no_slash b = true ->
  no_slash h = true ->
  no_slash id = true ->
  rest = "" \/ (exists r, rest = String slash r) ->
  exists more : list string,
    split_on slash
      (a ++ String slash (b ++ String slash (h ++ String slash (id ++ rest))))
    = a :: b :: h :: id :: more.
Proof.
  intros Ha Hb Hh Hid Hrest.
  rewrite (split_on_piece _ _ Ha), (split_on_piece _ _ Hb), (split_on_piece _ _ Hh).
  destruct Hrest as [-> | [r ->]].
  - rewrite append_empty, (split_on_whole _ Hid). now exists [].
  - rewrite (split_on_piece _ _ Hid). now eexists.
Qed.

(** X12: for a Quip URL, the thread id is what stands between the third
    slash and the next one, or the end: with [a], [b], [h] and [id] free of
    slashes, the URL [a/b/h/id], followed by nothing or by a slash and
    anything, gives [id]. *)
Theorem quip_url_thread_id (a b h id rest : string) :
  let url :=
    a ++ String slash (b ++ String slash (h ++ String slash (id ++ rest))) in
  no_slash a = true ->
  no_slash b = true ->
  no_slash h = true ->
  no_slash id = true ->
  rest = "" \/ (exists r, rest = String slash r) ->
  String.prefix "http" url = true ->
  substring_in "quip-amazon.com" url = true ->
  thread_id_of url = Some id.
Proof.
  intros url Ha Hb Hh Hid Hrest Hhttp Hquip.
  unfold thread_id_of. rewrite Hhttp, Hquip. cbn [andb].
  destruct (quip_url_pieces a b h id rest Ha Hb Hh Hid Hrest) as [more Hparts].
  unfold url. now rewrite Hparts.
Qed.

(** The arguments that give no thread id to work with. *)
Lemma thread_id_missing (url : string) :
  url = ""
  \/ (String.prefix "http" url = true
      /\ substring_in "quip-amazon.com" url = true
      /\ (count_char slash url < 3
          \/ exists a b h rest,
               url = a ++ String slash (b ++ String slash (h ++ String slash rest))
               /\ no_slash a = true /\ no_slash b = true /\ no_slash h = true
               /\ (rest = "" \/ exists r, rest = String slash r))) ->
  thread_id_of url = None \/ thread_id_of url = Some "".
Proof.
  intros [-> | (Hhttp & Hquip & [Hfew | (a & b & h & rest & -> & Ha & Hb & Hh & Hrest)])].
  - now right.
  - left. unfold thread_id_of.
    rewrite Hhttp, Hquip. cbn [andb]. rewrite split_on_length.
    destruct (Nat.leb_spec 4 (S (count_char slash url))); [lia | reflexivity].
  - right. destruct (quip_url_pieces a b h "" rest Ha Hb Hh eq_refl Hrest) as [more Hparts].
    change ("" ++ rest) with rest in Hparts.
    unfold thread_id_of. rewrite Hhttp, Hquip, Hparts. reflexivity.
Qed.

(** *** [download_quip_document] *)

(** X13: nothing is requested, and [None] comes back, for the empty
    string, for a Quip URL with fewer than three slashes, and for a Quip
    URL with nothing between its third slash and the next one or the
    end. *)
Theorem download_refuses_without_thread_id (url token base_url : string) (n : net) :
  url = ""
  \/ (String.prefix "http" url = true
      /\ substring_in "quip-amazon.com" url = true
      /\ (count_char slash url < 3
          \/ exists a b h rest,
               url = a ++ String slash (b ++ String slash (h ++ String slash rest))
               /\ no_slash a = true /\ no_slash b = true /\ no_slash h = true
               /\ (rest = "" \/ exists r, rest = String slash r))) ->
  download_quip_document url token base_url n = (None, n).
Proof.
  intros Hurl. unfold download_quip_document.
  destruct (thread_id_missing url Hurl) as [-> | ->]; reflexivity.
Qed.

(** X14: with a thread id that is not empty, exactly one request is sent,
    to [base_url/1/threads/id] with the token as bearer, whatever comes
    back; the function returns in every case. *)
Theorem download_sends_one_request (url token base_url id : string) (n : net) :
  thread_id_of url = Some id ->
  id <> "" ->
  let request :=
    {| request_url := base_url ++ "/1/threads/" ++ id;
       request_headers :=
         [("Authorization", "Bearer " ++ token);
          ("Content-Type", "application/json");
          ("User-Agent",
           "Mozilla/5.0 (Macintosh; Intel Mac OS X 10_15_7) AppleWebKit/537.36 (KHTML, like Gecko) Chrome/120.0.0.0 Safari/537.36")]
    |} in
  exists page : option string,
    download_quip_document url token base_url n
    = (page, (snd (requests_get request (fst n)), (snd n ++ [request])%list)).
Proof.
  intros Hid Hne request. unfold download_quip_document.
  rewrite Hid, (not_empty_eqb _ Hne).
  change (quip_request base_url id token) with request.
  destruct (requests_get request (fst n)) as [[data | e] w]; cbn [snd].
  - destruct (page_of data); eexists; reflexivity.
  - eexists; reflexivity.
Qed.


(** X16: after the request, [None] comes back when the request raises,
    when the body is not an object, when it is an object without [html],
    and when its [thread] entry is not an object. *)
Theorem download_gives_up
    (url token base_url id : string) (n : net) :
  thread_id_of url = Some id ->
  id <> "" ->
  (exists e w, requests_get (quip_request base_url id token) (fst n) = (Raise e, w))
  \/ (exists body w,
        requests_get (quip_request base_url id token) (fst n) = (Ok body, w)
        /\ forall data : dict, body <> VDict data)
  \/ (exists data w,
        requests_get (quip_request base_url id token) (fst n) = (Ok (VDict data), w)
        /\ lookup "html" data = None)
  \/ (exists data w thread,
        requests_get (quip_request base_url id token) (fst n) = (Ok (VDict data), w)
        /\ lookup "thread" data = Some thread
        /\ forall t : dict, thread <> VDict t) ->
  fst (download_quip_document url token base_url n) = None.
Proof.
  intros Hid Hne Hcase. unfold download_quip_document.
  rewrite Hid, (not_empty_eqb _ Hne).
  destruct Hcase
    as [(e & w & ->)
       | [(body & w & -> & Hbody)
         | [(data & w & -> & Hhtml) | (data & w & thread & -> & Hthread & Hnot)]]].
  - reflexivity.
  - unfold page_of.
    destruct body as [| b | z | f | t | l | d]; try reflexivity.
    + cbn [py_contains rbind]. now destruct (substring_in "html" t).
    + cbn [py_contains rbind]. now destruct (existsb _ l).
    + now destruct (Hbody d).
  - unfold page_of. cbn [py_contains rbind]. now rewrite Hhtml.
  - unfold page_of. cbn [py_contains getitem_str py_get rbind].
    destruct (lookup "html" data); [| reflexivity].
    cbn [rbind]. unfold dict_get at 1. rewrite Hthread.
    destruct thread as [| b | z | f | t | l | d]; try reflexivity.
    now destruct (Hnot d).
Qed.

End QuipProperties.

Module QuipRuns.

Definition url : string := "https://quip-amazon.com/AbC123/Timber-runbook".

Lemma thread_id_run : thread_id_of url = Some "AbC123".
Proof.
  apply (quip_url_thread_id "https:" "" "quip-amazon.com" "AbC123"
           (String slash "Timber-runbook"));
    try reflexivity.
  right. now exists "Timber-runbook".
Defined.

Lemma short_url_run :
  @download_quip_document Demo.simulated QuipCases.web
    "https://quip-amazon.com" "token" "https://platform.quip-amazon.com"
    (0%nat, [])
  = (None, (0%nat, [])).
Proof.
  apply (@download_refuses_without_thread_id Demo.simulated QuipCases.web).
  right. repeat split. left. cbn. lia.
Defined.

Lemma one_request_run :
  let request :=
    {| request_url := "https://platform.quip-amazon.com/1/threads/AbC123";
       request_headers :=
         [("Authorization", "Bearer token");
          ("Content-Type", "application/json");
          ("User-Agent",
           "Mozilla/5.0 (Macintosh; Intel Mac OS X 10_15_7) AppleWebKit/537.36 (KHTML, like Gecko) Chrome/120.0.0.0 Safari/537.36")]
    |} in
  exists page : option string,
    @download_quip_document Demo.simulated QuipCases.web
      url "token" "https://platform.quip-amazon.com" (0%nat, [])
    = (page, (1%nat, [request])).
Proof.
  apply (@download_sends_one_request Demo.simulated QuipCases.web
           url "token" "https://platform.quip-amazon.com" "AbC123" (0%nat, []));
    [reflexivity | discriminate].
Defined.


Lemma unknown_thread_run :
  fst (@download_quip_document Demo.simulated QuipCases.web
         "XyZ789" "token" "https://platform.quip-amazon.com" (0%nat, []))
  = None.
Proof.
  apply (@download_gives_up Demo.simulated QuipCases.web
           "XyZ789" "token" "https://platform.quip-amazon.com" "XyZ789" (0%nat, []));
    [reflexivity | discriminate |].
  left. eexists _, _. reflexivity.
Defined.

End QuipRuns.

(** * Properties of [upload_to_s3] *)

Section UploadProperties.
Context {host : Host} {storage : Storage}.

(** The versioning check never raises, changes nothing but the bucket's
    versioning, and makes one call, or two when it tries to enable it. *)
Lemma check_versioning_returns (bucket : string) (st : store) :
  exists (st' : store) (calls : list s3_call),
    check_versioning bucket st = (Ok tt, st')
    /\ s3_log st' = (s3_log st ++ calls)%list
    /\ (calls = [GetBucketVersioning bucket]
        \/ calls = [GetBucketVersioning bucket; PutBucketVersioning bucket "Enabled"]).
Proof.
  unfold check_versioning, try_U, bind_U, lift_U, unit_U, say,
    get_bucket_versioning, put_bucket_versioning.
  destruct (s3_get_bucket_versioning bucket (buckets st)) as [[versioning | e] b];
    [| eexists _, [GetBucketVersioning bucket]; repeat split; now left].
  destruct (py_get versioning "Status" VNone) as [status | e];
    [| eexists _, [GetBucketVersioning bucket]; repeat split; now left].
  destruct (negb (eq_str status "Enabled"));
    [| eexists _, [GetBucketVersioning bucket]; repeat split; now left].
  cbn [buckets s3_log console].
  destruct (s3_put_bucket_versioning bucket "Enabled" b) as [[[] | e] b'];
    eexists _, [GetBucketVersioning bucket; PutBucketVersioning bucket "Enabled"];
    (split; [reflexivity | split; [| now right]]);
    cbn [s3_log]; now rewrite <- app_assoc.
Qed.

Lemma forallb_not_put (bucket : string) (calls : list s3_call) :
  calls = [GetBucketVersioning bucket]
  \/ calls = [GetBucketVersioning bucket; PutBucketVersioning bucket "Enabled"] ->
  forallb (fun c => negb (is_put_object c)) calls = true.
Proof. now intros [-> | ->]. Qed.

(** X17: empty content is never uploaded: [None] comes back and no
    [put_object] call is made, although the versioning of the bucket may
    have been read, and enabled, before the content is looked at. *)
Theorem empty_content_is_not_uploaded
    (bucket : string) (output_name thread_id : option string) (st : store) :
  exists (st' : store) (calls : list s3_call),
    upload_to_s3 "" bucket output_name thread_id st = (None, st')
    /\ s3_log st' = (s3_log st ++ calls)%list
    /\ forallb (fun c => negb (is_put_object c)) calls = true.
Proof.
  unfold upload_to_s3, bind_U at 1, s3_client.
  destruct (boto3_client_s3 (buckets st)) as [[[] | e] b];
    [| exists (mkStore b (s3_log st) (console st)), [];
       repeat split; cbn [s3_log]; now rewrite app_nil_r].
  destruct (check_versioning_returns bucket (mkStore b (s3_log st) (console st)))
    as (st1 & calls & Hcheck & Hlog & Hcalls).
  cbn [s3_log] in Hlog.
  exists st1, calls. unfold bind_U at 1. rewrite Hcheck.
  split; [| split; [exact Hlog | exact (forallb_not_put _ _ Hcalls)]].
  unfold bind_U, lift_U, unit_U.
  destruct (absent output_name); [| reflexivity].
  now destruct (soup_title "") as [[t |] | e].
Qed.

(** The last steps of [upload_to_s3] when a thread id is given. *)
Lemma put_step (content bucket url id : string) (st2 st' : store) :
  match
    (if String.eqb content "" then unit_U None
     else
       bind_U
         (put_object bucket ("quip-content/" ++ id ++ ".html") content "text/html")
         (fun _ =>
            unit_U
              (Some ("https://" ++ bucket ++ ".s3.amazonaws.com/"
                     ++ "quip-content/" ++ id ++ ".html")))) st2
  with
  | (Ok u, st3) => (u, st3)
  | (Raise _, st3) => (None, st3)
  end = (Some url, st') ->
  url = "https://" ++ bucket ++ ".s3.amazonaws.com/quip-content/" ++ id ++ ".html"
  /\ content <> ""
  /\ s3_log st'
     = (s3_log st2
        ++ [PutObject bucket ("quip-content/" ++ id ++ ".html") content "text/html"])%list.
Proof.
  destruct (String.eqb content "") eqn:Hc; [discriminate |].
  unfold bind_U, put_object, unit_U.
  destruct (s3_put_object _ _ _ _ _) as [[[] | e] b2]; [| discriminate].
  intros [= <- <-]. repeat split. now apply String.eqb_neq.
Qed.

(** With a thread id, [upload_to_s3] comes down to the versioning check
    followed by [put_step]. *)
Lemma upload_with_thread_id
    (content bucket url id : string) (output_name : option string)
    (st st' : store) :
  id <> "" ->
  upload_to_s3 content bucket output_name (Some id) st = (Some url, st') ->
  exists st2 : store,
    match
      (if String.eqb content "" then unit_U None
       else
         bind_U
           (put_object bucket ("quip-content/" ++ id ++ ".html") content "text/html")
           (fun _ =>
              unit_U
                (Some ("https://" ++ bucket ++ ".s3.amazonaws.com/"
                       ++ "quip-content/" ++ id ++ ".html")))) st2
    with
    | (Ok u, st3) => (u, st3)
    | (Raise _, st3) => (None, st3)
    end = (Some url, st').
Proof.
  intros Hid. unfold upload_to_s3, bind_U at 1, s3_client.
  destruct (boto3_client_s3 (buckets st)) as [[[] | e] b]; [| discriminate].
  destruct (check_versioning_returns bucket (mkStore b (s3_log st) (console st)))
    as (st1 & calls & Hcheck & _).
  unfold bind_U at 1. rewrite Hcheck.
  assert (Hkey : absent (Some id) = false) by (cbn; now apply String.eqb_neq).
  unfold bind_U at 1. rewrite Hkey. cbn [named].
  destruct (absent output_name).
  - unfold bind_U at 1, lift_U.
    destruct (soup_title content) as [title | e]; [| discriminate].
    intros H. now exists st1.
  - intros H. now exists st1.
Qed.

(** X18: a URL that comes back names an object that was just put: with a
    thread id, the content went to the key [quip-content/id.html] of the
    bucket as [text/html], in the last call made, whatever the output name
    and the title are, and the URL is that of this key. *)
Theorem returned_url_names_the_object
    (content bucket url id : string) (output_name : option string)
    (st st' : store) :
  id <> "" ->
  upload_to_s3 content bucket output_name (Some id) st = (Some url, st') ->
  url = "https://" ++ bucket ++ ".s3.amazonaws.com/quip-content/" ++ id ++ ".html"
  /\ content <> ""
  /\ exists before : list s3_call,
       s3_log st'
       = (before
          ++ [PutObject bucket ("quip-content/" ++ id ++ ".html") content "text/html"])%list.
Proof.
  intros Hid Hup.
  destruct (upload_with_thread_id _ _ _ _ _ _ _ Hid Hup) as [st2 Hstep].
  destruct (put_step _ _ _ _ _ _ Hstep) as (Hurl & Hc & Hlog).
  repeat split; [exact Hurl | exact Hc | now exists (s3_log st2)].
Qed.

(** X19: trouble with versioning does not stop an upload: when the
    client can be created, a name is given, and [put_object] goes through,
    content that is not empty is put under the key of the thread id, in
    the last call made, and the URL of that key comes back.  Before it the
    only calls are those of the versioning check: the read, and the
    attempt to enable it when the read did not find it enabled, whether
    either of them raised or not. *)
Theorem versioning_does_not_block
    (content bucket id name : string) (st : store) :
  content <> "" ->
  id <> "" ->
  name <> "" ->
  fst (boto3_client_s3 (buckets st)) = Ok tt ->
  (forall b : s3,
      fst (s3_put_object bucket ("quip-content/" ++ id ++ ".html") content
             "text/html" b)
      = Ok tt) ->
  exists (st' : store) (calls : list s3_call),
    upload_to_s3 content bucket (Some name) (Some id) st
    = (Some ("https://" ++ bucket ++ ".s3.amazonaws.com/quip-content/" ++ id
             ++ ".html"),
       st')
    /\ s3_log st'
       = (s3_log st ++ calls
          ++ [PutObject bucket ("quip-content/" ++ id ++ ".html") content
                "text/html"])%list
    /\ (calls = [GetBucketVersioning bucket]
        \/ calls = [GetBucketVersioning bucket;
                    PutBucketVersioning bucket "Enabled"]).
Proof.
  intros Hc Hid Hname Hclient Hput.
  unfold upload_to_s3, bind_U at 1, s3_client.
  destruct (boto3_client_s3 (buckets st)) as [r b]. cbn [fst] in Hclient. subst r.
  destruct (check_versioning_returns bucket (mkStore b (s3_log st) (console st)))
    as (st1 & calls & Hcheck & Hlog & Hcalls).
  cbn [s3_log] in Hlog.
  unfold bind_U at 1. rewrite Hcheck.
  unfold bind_U, unit_U, put_object. cbn [absent named].
  rewrite (not_empty_eqb _ Hname), (not_empty_eqb _ Hid), (not_empty_eqb _ Hc).
  specialize (Hput (buckets st1)).
  destruct (s3_put_object _ _ _ _ _) as [r b2]. cbn [fst] in Hput. subst r.
  eexists _, calls. split; [reflexivity | split; [| exact Hcalls]].
  cbn [s3_log]. now rewrite Hlog, <- app_assoc.
Qed.

(** X20: without a thread id and without an output name, the object is
    named after the title of the page: a URL that comes back ends in
    [quip-content/name.html] where [name] is the sanitized title, or
    [Quip_Document] when the page has none; in both cases [name] holds
    none of the characters [sanitize_title] replaces and no white space at
    either end. *)
Theorem title_names_the_object
    (content bucket url : string) (output_name thread_id : option string)
    (st st' : store) :
  absent output_name = true ->
  absent thread_id = true ->
  upload_to_s3 content bucket output_name thread_id st = (Some url, st') ->
  exists name : string,
    url = "https://" ++ bucket ++ ".s3.amazonaws.com/quip-content/" ++ name ++ ".html"
    /\ string_forall (fun c => negb (forbidden c)) name = true
    /\ strip name = name
    /\ (soup_title content = Ok None /\ name = "Quip_Document"
        \/ exists t, soup_title content = Ok (Some t)
                     /\ name = sanitize_title (strip t)).
Proof.
  intros Hout Htid. unfold upload_to_s3, bind_U at 1, s3_client.
  destruct (boto3_client_s3 (buckets st)) as [[[] | e] b]; [| discriminate].
  destruct (check_versioning_returns bucket (mkStore b (s3_log st) (console st)))
    as (st1 & calls & Hcheck & _).
  unfold bind_U at 1. rewrite Hcheck.
  unfold bind_U, lift_U, unit_U, put_object. rewrite Hout, Htid. cbn [named].
  destruct (soup_title content) as [title | e]; [| discriminate].
  destruct (String.eqb content ""); [discriminate |].
  destruct (s3_put_object _ _ _ _ _) as [[[] | e] b2]; [| discriminate].
  intros [= <- _].
  exists (sanitize_title match title with Some t => strip t | None => "Quip_Document" end).
  repeat split; [apply sanitize_title_allowed | apply sanitize_title_stripped |].
  destruct title as [t |]; [right; now exists t | now left].
Qed.

(** *** [main] *)

(** X21: when the argument gives no thread id (the empty string, a Quip
    URL with fewer than three slashes or with nothing after the third),
    [main] does not return 0, sends no HTTP request and makes no call to
    S3. *)
Theorem quip_main_without_thread_id
    {web : Web} (url token bucket base_url : string) (output region : option string)
    (n : net) (st : store) :
  url = ""
  \/ (String.prefix "http" url = true
      /\ substring_in "quip-amazon.com" url = true
      /\ (count_char slash url < 3
          \/ exists a b h rest,
               url = a ++ String slash (b ++ String slash (h ++ String slash rest))
               /\ no_slash a = true /\ no_slash b = true /\ no_slash h = true
               /\ (rest = "" \/ exists r, rest = String slash r))) ->
  exists (r : result Z) (st' : store),
    quip_main url token bucket output region base_url (n, st) = (r, (n, st'))
    /\ r <> Ok 0%Z
    /\ s3_log st' = s3_log st.
Proof.
  intros Hurl. unfold quip_main.
  destruct (if absent region then (Ok tt, buckets st)
            else boto3_setup_default_session (named region) (buckets st))
    as [[[] | e] b].
  - assert (Hdown : download_quip_document url token base_url n = (None, n)).
    { unfold download_quip_document.
      destruct (thread_id_missing url Hurl) as [-> | ->]; reflexivity. }
    rewrite Hdown. cbn [absent].
    eexists _, _. repeat split. discriminate.
  - eexists _, _. repeat split. discriminate.
Qed.

(** X22: when [main] returns 0, the argument gave a thread id, one
    request went to [base_url/1/threads/id], and the page made from its
    answer was put, in the last call to S3, under the key
    [quip-content/id.html] of the bucket. *)
Theorem quip_main_success
    {web : Web} (url token bucket base_url : string) (output region : option string)
    (n n' : net) (st st' : store) :
  quip_main url token bucket output region base_url (n, st) = (Ok 0%Z, (n', st')) ->
  exists (id content : string) (before : list s3_call),
    thread_id_of url = Some id
    /\ id <> ""
    /\ download_quip_document url token base_url n = (Some content, n')
    /\ snd n' = (snd n ++ [quip_request base_url id token])%list
    /\ s3_log st'
       = (before
          ++ [PutObject bucket ("quip-content/" ++ id ++ ".html") content "text/html"])%list.
Proof.
  unfold quip_main.
  destruct (if absent region then (Ok tt, buckets st)
            else boto3_setup_default_session (named region) (buckets st))
    as [[[] | e] b]; [| discriminate].
  destruct (download_quip_document url token base_url n) as [content n1] eqn:Hdown.
  destruct content as [content |]; cbn [absent named]; [| discriminate].
  destruct (String.eqb content ""); [discriminate |].
  destruct (upload_to_s3 content bucket output (thread_id_of url)
              (mkStore b (s3_log st) (console st)))
    as [[s3_url |] st1] eqn:Hup; cbn [absent]; [| discriminate].
  destruct (String.eqb s3_url ""); [discriminate |].
  intros [= <- <-].
  unfold download_quip_document in Hdown.
  destruct (thread_id_of url) as [id |] eqn:Hthread; [| discriminate].
  destruct (String.eqb id "") eqn:Hid; [discriminate |].
  assert (Hne : id <> "") by now apply String.eqb_neq.
  destruct (upload_with_thread_id _ _ _ _ _ _ _ Hne Hup) as [st2 Hstep].
  destruct (put_step _ _ _ _ _ _ Hstep) as (_ & _ & Hlog).
  exists id, content, (s3_log st2).
  split; [reflexivity | split; [exact Hne | split; [| split; [| exact Hlog]]]].
  - reflexivity.
  - destruct (requests_get _ _) as [[data | e] w].
    + destruct (page_of data); now injection Hdown as _ <-.
    + now injection Hdown as _ <-.
Qed.

End UploadProperties.

Module UploadRuns.
Import S3Cases.

Definition fresh : @store storage := @mkStore storage [] [] [].

Definition page : string := "<html><head><title> What is: Timber? </title></head></html>".

(** A custom name is given, yet the thread id names the object. *)
Lemma thread_id_key_run :
  "https://docs.s3.amazonaws.com/quip-content/AbC123.html"
  = "https://" ++ "docs" ++ ".s3.amazonaws.com/quip-content/" ++ "AbC123" ++ ".html"
  /\ page <> ""
  /\ exists before : list s3_call,
       @s3_log storage
         (snd (@upload_to_s3 Demo.simulated storage page "docs" (Some "runbook")
                 (Some "AbC123") fresh))
       = (before
          ++ [PutObject "docs" ("quip-content/" ++ "AbC123" ++ ".html") page
                "text/html"])%list.
Proof.
  apply (@returned_url_names_the_object Demo.simulated storage page "docs"
           "https://docs.s3.amazonaws.com/quip-content/AbC123.html" "AbC123"
           (Some "runbook") fresh);
    [discriminate | reflexivity].
Defined.

(** Versioning is off for the bucket [docs]; it is switched on and the
    page is uploaded. *)
Lemma versioning_run :
  exists (st' : @store storage) (calls : list s3_call),
    @upload_to_s3 Demo.simulated storage page "docs" (Some "runbook")
      (Some "AbC123") fresh
    = (Some ("https://" ++ "docs" ++ ".s3.amazonaws.com/quip-content/" ++ "AbC123"
             ++ ".html"),
       st')
    /\ @s3_log storage st'
       = (calls
          ++ [PutObject "docs" ("quip-content/" ++ "AbC123" ++ ".html") page
                "text/html"])%list
    /\ (calls = [GetBucketVersioning "docs"]
        \/ calls = [GetBucketVersioning "docs";
                    PutBucketVersioning "docs" "Enabled"]).
Proof.
  apply (@versioning_does_not_block Demo.simulated storage page "docs" "AbC123"
           "runbook" fresh);
    try discriminate; reflexivity.
Defined.

Lemma title_key_run :
  exists name : string,
    "https://docs.s3.amazonaws.com/quip-content/What is_ Timber_.html"
    = "https://" ++ "docs" ++ ".s3.amazonaws.com/quip-content/" ++ name ++ ".html"
    /\ string_forall (fun c => negb (forbidden c)) name = true
    /\ strip name = name
    /\ (title_of page = Ok None /\ name = "Quip_Document"
        \/ exists t, title_of page = Ok (Some t) /\ name = sanitize_title (strip t)).
Proof.
  apply (@title_names_the_object Demo.simulated storage page "docs"
           "https://docs.s3.amazonaws.com/quip-content/What is_ Timber_.html"
           None None fresh
           (snd (@upload_to_s3 Demo.simulated storage page "docs" None None fresh)));
    reflexivity.
Defined.

End UploadRuns.

Module MainRuns.
Import S3Cases.

Lemma no_thread_id_run :
  exists (r : result Z) (st' : @store storage),
    @quip_main Demo.simulated storage QuipCases.web
      "https://quip-amazon.com" "token" "docs" None (Some "us-west-2")
      "https://platform.quip-amazon.com" ((0%nat, []), UploadRuns.fresh)
    = (r, ((0%nat, []), st'))
    /\ r <> Ok 0%Z
    /\ @s3_log storage st' = [].
Proof.
  apply (@quip_main_without_thread_id Demo.simulated storage QuipCases.web
           "https://quip-amazon.com" "token" "docs"
           "https://platform.quip-amazon.com" None (Some "us-west-2")
           (0%nat, []) UploadRuns.fresh).
  right. repeat split. left. cbn. lia.
Defined.

Definition outcome : result Z * (@net QuipCases.web * @store storage) :=
  @quip_main Demo.simulated storage QuipCases.web
    QuipRuns.url "token" "docs" None None
    "https://platform.quip-amazon.com" ((0%nat, []), UploadRuns.fresh).

Lemma stored_run :
  exists (id content : string) (before : list s3_call),
    thread_id_of QuipRuns.url = Some id
    /\ id <> ""
    /\ @download_quip_document Demo.simulated QuipCases.web
         QuipRuns.url "token" "https://platform.quip-amazon.com" (0%nat, [])
       = (Some content, fst (snd outcome))
    /\ snd (fst (snd outcome))
       = [quip_request "https://platform.quip-amazon.com" id "token"]
    /\ @s3_log storage (snd (snd outcome))
       = (before
          ++ [PutObject "docs" ("quip-content/" ++ id ++ ".html") content "text/html"])%list.
Proof.
  apply (@quip_main_success Demo.simulated storage QuipCases.web
           QuipRuns.url "token" "docs" "https://platform.quip-amazon.com" None None
           (0%nat, []) (fst (snd outcome)) UploadRuns.fresh (snd (snd outcome))).
  reflexivity.
Defined.

End MainRuns.

(** * A line nested too deep *)

Module DeepLine.
Import Demo.

(** The number of brackets a string opens with. *)
Fixpoint opening (s : string) : nat :=
  match s with
  | String c s' => if Ascii.eqb c "["%char then S (opening s') else 0
  | EmptyString => 0
  end.

Definition too_deep : exn :=
  Raised "RecursionError"
    "maximum recursion depth exceeded while decoding a JSON array from a unicode string".

(** A decoder that, like [json.loads] under the default recursion limit,
    gives up with a [RecursionError] on a line that opens a thousand
    arrays or more. *)
Definition loads (s : string) : result value :=
  if (1000 <=? opening s)%nat then Raise too_deep else Demo.loads s.

Definition host : Host := {|
  json_loads := loads;
  json_dumps := dumps;
  repr_value := dumps;
  exn_str := describe;
  services := nat;
  retrieve := do_retrieve;
  invoke_model := do_invoke_model;
  LOCAL_MODE := true;
  KNOWLEDGE_BASE_ID := "XQHHIEJ8MA";
  MODEL_ID := "anthropic.claude-3-haiku-20240307-v1:0"
|}.

(** Two thousand opening brackets. *)
Definition line_deep : string := String.concat "" (repeat "[" 2000) ++ nl.

(** C7, as stated, fails on two kinds of lines that are not parseable as
    JSON.  On the line of two thousand brackets the decoder raises a
    [RecursionError], which is no [JSONDecodeError]: the line printed is
    the error payload with code -32603, not -32700.  On a blank line
    nothing is printed at all. *)
Lemma unparseable_lines_without_parse_error :
  @json_loads host (strip line_deep) = Raise too_deep
  /\ @main host 0%nat [Line line_deep]
     = (Returned,
        @mkProcess host MCPServer_init 0%nat []
          [dumps
             (VDict
                [("jsonrpc", VStr "2.0");
                 ("id", VNone);
                 ("error",
                  VDict [("code", VInt (-32603));
                         ("message", VStr "Internal error")])])]
          None)
  /\ @json_loads host (strip line_blank) = Raise (JSONDecodeError "Expecting value")
  /\ @main host 0%nat [Line line_blank] = (Returned, @start host 0%nat).
Proof. repeat split; vm_compute; reflexivity. Qed.

End DeepLine.
